(** * sg-upload-service: the upload pipeline and its configuration builder

    A shallow embedding of [upload-config.interface.ts],
    [upload-config.builder.ts], [upload.module.ts] and [upload.service.ts].

    - JavaScript strings are [string]; [Buffer]s are lists of bytes; the
      sizes the code compares ([size], [maxSize]) are integers in [Z];
      the numbers it tests for truthiness ([defaultMaxSize], [quality],
      [maxWidth], [maxHeight]) are an integer or [NaN].
    - [fileTypes], a plain object used as a dictionary, is its own
      properties (a [gmap string FileTypeConfig]) together with its
      prototype: reading [fileTypes[key]] also finds what the object
      inherits, and assigning [fileTypes["__proto__"]] replaces the
      prototype.
    - The builder's [config] object lives in a heap, because [build()]
      hands out a reference to it.
    - The service runs in a small monad that threads the log of calls made
      to the external collaborators (image codec, ClamAV, file system and
      the cloud SDKs) and carries a thrown [Error]. *)

From Stdlib Require Import ZArith String Ascii List Lia.
From Stdlib Require Import Strings.Byte.
From stdpp Require Import gmap strings list fin_maps.

Local Open Scope string_scope.
Local Open Scope Z_scope.

(** ** JavaScript helpers *)

Module JS.

(** [s.split(c)] for a one-character separator: never an empty array. *)
Fixpoint split (c : ascii) (s : string) : list string :=
  match s with
  | EmptyString => [EmptyString]
  | String a s' =>
      if Ascii.eqb a c then EmptyString :: split c s'
      else match split c s' with
           | h :: t => String a h :: t
           | [] => [String a EmptyString]
           end
  end.

(** [a.pop()]: the last element, [undefined] ([None]) on an empty array. *)
Definition pop (a : list string) : option string := last a.

(** [a.join(sep)]. *)
Fixpoint join (sep : string) (a : list string) : string :=
  match a with
  | [] => ""
  | [x] => x
  | x :: rest => x ++ sep ++ join sep rest
  end.

(** [s.startsWith(p)]. *)
Definition startsWith (p s : string) : bool := String.prefix p s.

(** [a.includes(x)] on an array of strings, with [x] possibly
    [undefined]: no string equals [undefined]. *)
Definition includes (a : list string) (x : option string) : bool :=
  match x with
  | Some s => existsb (String.eqb s) a
  | None => false
  end.

(** A value interpolated in a template literal, or used as a property
    key: [undefined] reads "undefined". *)
Definition toString (x : option string) : string :=
  match x with
  | Some s => s
  | None => "undefined"
  end.

(** A number the code tests for truthiness: an integer, or [NaN]. *)
Inductive number :=
| Num (z : Z)
| NaN.

(** Truthiness of an optional number: [undefined], [0] and [NaN] are
    falsy. *)
Definition truthy (x : option number) : bool :=
  match x with
  | Some (Num n) => negb (n =? 0)
  | Some NaN => false
  | None => false
  end.

(** Whether a string holds the character [c]. *)
Fixpoint contains (c : ascii) (s : string) : bool :=
  match s with
  | EmptyString => false
  | String a s' => Ascii.eqb a c || contains c s'
  end.

End JS.

(** An integer literal stands for the number, also under [Some]. *)
Coercion JS.Num : Z >-> JS.number.
Arguments Some {A} & a.

(** ** upload-config.interface.ts *)

Record FileTypeConfig := {
  maxSize : Z;
  allowedMimeTypes : list string;
  allowedExtensions : list string
}.

(** [fileTypes: { [key: string]: FileTypeConfig }], held in a plain
    object: its own properties, and its prototype, which is
    [Object.prototype] ([None]) unless an assignment to ["__proto__"]
    has replaced it by a [FileTypeConfig] object. *)
Record FileTypes := {
  own : gmap string FileTypeConfig;
  proto : option FileTypeConfig
}.

(** Reading and assigning the properties of a [fileTypes] object. *)
Module Obj.

(** What [fileTypes[key]] can evaluate to, [undefined] being [None]:
    an entry, a field of the entry that serves as prototype, or a
    member of [Object.prototype] (a function, or for ["__proto__"] the
    prototype object itself). *)
Inductive Value :=
| Config (c : FileTypeConfig)
| Number (n : Z)
| Array (a : list string)
| Builtin.

(** The names every plain object inherits from [Object.prototype],
    ["__proto__"] apart. *)
Definition Object_prototype : list string :=
  ["constructor"; "__defineGetter__"; "__defineSetter__"; "hasOwnProperty";
   "__lookupGetter__"; "__lookupSetter__"; "isPrototypeOf";
   "propertyIsEnumerable"; "toString"; "valueOf"; "toLocaleString"].

Definition inherited (key : string) : option Value :=
  if existsb (String.eqb key) Object_prototype then Some Builtin else None.

(** [o[key]]: an own property first, then the prototype chain. *)
Definition get (o : FileTypes) (key : string) : option Value :=
  match own o !! key with
  | Some c => Some (Config c)
  | None =>
      if String.eqb key "__proto__" then
        Some (match proto o with Some c => Config c | None => Builtin end)
      else
        match proto o with
        | Some c =>
            if String.eqb key "maxSize" then Some (Number (maxSize c))
            else if String.eqb key "allowedMimeTypes"
            then Some (Array (allowedMimeTypes c))
            else if String.eqb key "allowedExtensions"
            then Some (Array (allowedExtensions c))
            else inherited key
        | None => inherited key
        end
  end.

(** [o[key] = c]: an own property is created or overwritten, except
    that ["__proto__"], when not an own property, is the setter of
    [Object.prototype] and replaces the prototype. *)
Definition set (o : FileTypes) (key : string) (c : FileTypeConfig)
    : FileTypes :=
  match own o !! key with
  | None =>
      if String.eqb key "__proto__"
      then {| own := own o; proto := Some c |}
      else {| own := <[key := c]> (own o); proto := proto o |}
  | Some _ => {| own := <[key := c]> (own o); proto := proto o |}
  end.

(** Whether [key] names something the object inherits. *)
Definition inherits (o : FileTypes) (key : string) : bool :=
  match get {| own := ∅; proto := proto o |} key with
  | Some _ => true
  | None => false
  end.

(** Truthiness: objects, arrays and functions are truthy; a number is
    unless it is [0]; [undefined] is not. *)
Definition truthy (v : option Value) : bool :=
  match v with
  | Some (Number n) => negb (n =? 0)
  | Some _ => true
  | None => false
  end.

(** [v.maxSize], [v.allowedMimeTypes] and [v.allowedExtensions]:
    [undefined] on anything but an entry. *)
Definition maxSize_of (v : option Value) : option Z :=
  match v with Some (Config c) => Some (maxSize c) | _ => None end.
Definition allowedMimeTypes_of (v : option Value) : option (list string) :=
  match v with Some (Config c) => Some (allowedMimeTypes c) | _ => None end.
Definition allowedExtensions_of (v : option Value) : option (list string) :=
  match v with Some (Config c) => Some (allowedExtensions c) | _ => None end.

(** The object literal [{}], and the plain object with the given own
    properties. *)
Definition empty : FileTypes := {| own := ∅; proto := None |}.
Definition plain (m : gmap string FileTypeConfig) : FileTypes :=
  {| own := m; proto := None |}.

End Obj.

Record LocalStorageConfig := { destination : string }.

Record S3StorageConfig := {
  accessKeyId : string;
  secretAccessKey : string;
  region : string;
  bucket : string;
  endpoint : option string
}.

Record AzureStorageConfig := {
  connectionString : string;
  container : string
}.

Record GCPStorageConfig := {
  projectId : string;
  keyFilename : string;
  gcp_bucket : string
}.

(** The union [LocalStorageConfig | S3StorageConfig | AzureStorageConfig |
    GCPStorageConfig] of [StorageConfig.config]. *)
Inductive BackendConfig :=
| LocalCfg (c : LocalStorageConfig)
| S3Cfg (c : S3StorageConfig)
| AzureCfg (c : AzureStorageConfig)
| GCPCfg (c : GCPStorageConfig).

(** [StorageConfig]: the tag [type] is a string at run time, and the
    interface does not tie it to the variant held in [config]. *)
Record StorageConfig := {
  type : string;
  storage_config : BackendConfig
}.

Record ClamAV := { host : string; port : Z }.
Record VirusSettings := { clamav : ClamAV }.
Record VirusConfig := {
  virus_enabled : bool;
  virus_config : option VirusSettings
}.

Record CompressionSettings := {
  quality : option JS.number;
  maxWidth : option JS.number;
  maxHeight : option JS.number
}.
Record CompressionConfig := {
  compression_enabled : bool;
  compression_config : option CompressionSettings
}.

Record ChunksConfig := {
  chunks_enabled : bool;
  chunk_size : option JS.number
}.

(** [Partial<UploadConfig>]: the object the builder fills in. After
    [build()] the very same object is used [as UploadConfig]. *)
Record PartialUploadConfig := {
  p_storage : option StorageConfig;
  p_fileTypes : option FileTypes;
  p_defaultMaxSize : option JS.number;
  p_virus : option VirusConfig;
  p_compression : option CompressionConfig;
  p_chunks : option ChunksConfig
}.

(** [UploadConfig], as the service reads it. *)
Record UploadConfig := {
  storage : StorageConfig;
  fileTypes : FileTypes;
  defaultMaxSize : JS.number;
  virus : option VirusConfig;
  compression : option CompressionConfig;
  chunks : option ChunksConfig
}.

(** The cast [this.config as UploadConfig]: defined on the objects that
    have the three required fields. *)
Definition as_UploadConfig (c : PartialUploadConfig) : option UploadConfig :=
  match p_storage c, p_fileTypes c, p_defaultMaxSize c with
  | Some st, Some ft, Some d =>
      Some {| storage := st; fileTypes := ft; defaultMaxSize := d;
              virus := p_virus c; compression := p_compression c;
              chunks := p_chunks c |}
  | _, _, _ => None
  end.

(** ** upload-config.builder.ts *)

Module Builder.

(** Object references, and the heap of config objects. *)
Abbreviation loc := nat (only parsing).
Abbreviation heap := (gmap nat PartialUploadConfig) (only parsing).

(** The object literal [{}]. *)
Definition empty_config : PartialUploadConfig :=
  {| p_storage := None; p_fileTypes := None; p_defaultMaxSize := None;
     p_virus := None; p_compression := None; p_chunks := None |}.

(** Reading the object behind a reference. *)
Definition deref (h : heap) (l : loc) : PartialUploadConfig :=
  default empty_config (h !! l).

(** [class UploadConfigBuilder { private config: Partial<UploadConfig> }]:
    the builder holds a reference to its config object. *)
Record UploadConfigBuilder := { config : loc }.

(** [new UploadConfigBuilder()]: allocates [config = {}]. *)
Definition new_builder (h : heap) : UploadConfigBuilder * heap :=
  let l := fresh (dom h) in
  ({| config := l |}, <[l := empty_config]> h).

(** Field assignments [this.config.f = v]. *)
Definition set_storage (v : StorageConfig) (c : PartialUploadConfig) :=
  {| p_storage := Some v; p_fileTypes := p_fileTypes c;
     p_defaultMaxSize := p_defaultMaxSize c; p_virus := p_virus c;
     p_compression := p_compression c; p_chunks := p_chunks c |}.
Definition set_fileTypes (v : FileTypes)
    (c : PartialUploadConfig) :=
  {| p_storage := p_storage c; p_fileTypes := Some v;
     p_defaultMaxSize := p_defaultMaxSize c; p_virus := p_virus c;
     p_compression := p_compression c; p_chunks := p_chunks c |}.
Definition set_defaultMaxSize (v : JS.number) (c : PartialUploadConfig) :=
  {| p_storage := p_storage c; p_fileTypes := p_fileTypes c;
     p_defaultMaxSize := Some v; p_virus := p_virus c;
     p_compression := p_compression c; p_chunks := p_chunks c |}.
Definition set_virus (v : VirusConfig) (c : PartialUploadConfig) :=
  {| p_storage := p_storage c; p_fileTypes := p_fileTypes c;
     p_defaultMaxSize := p_defaultMaxSize c; p_virus := Some v;
     p_compression := p_compression c; p_chunks := p_chunks c |}.
Definition set_compression (v : CompressionConfig)
    (c : PartialUploadConfig) :=
  {| p_storage := p_storage c; p_fileTypes := p_fileTypes c;
     p_defaultMaxSize := p_defaultMaxSize c; p_virus := p_virus c;
     p_compression := Some v; p_chunks := p_chunks c |}.
Definition set_chunks (v : ChunksConfig) (c : PartialUploadConfig) :=
  {| p_storage := p_storage c; p_fileTypes := p_fileTypes c;
     p_defaultMaxSize := p_defaultMaxSize c; p_virus := p_virus c;
     p_compression := p_compression c; p_chunks := Some v |}.

(** A statement [this.config. ... = ...] run on the builder [b]: it
    updates the object [b.config] points to, in place. *)
Definition assign (b : UploadConfigBuilder)
    (f : PartialUploadConfig -> PartialUploadConfig) (h : heap) : heap :=
  <[config b := f (deref h (config b))]> h.

(** The setters. Each returns [this]; only the heap is threaded. *)
Definition useLocalStorage (dest : string) (b : UploadConfigBuilder) :=
  assign b (set_storage
    {| type := "local";
       storage_config := LocalCfg {| destination := dest |} |}).

Definition useS3Storage (key secret reg bkt : string) (ep : option string)
    (b : UploadConfigBuilder) :=
  assign b (set_storage
    {| type := "s3";
       storage_config :=
         S3Cfg {| accessKeyId := key; secretAccessKey := secret;
                  region := reg; bucket := bkt; endpoint := ep |} |}).

Definition useAzureStorage (conn cont : string) (b : UploadConfigBuilder) :=
  assign b (set_storage
    {| type := "azure";
       storage_config :=
         AzureCfg {| connectionString := conn; container := cont |} |}).

Definition useGCPStorage (proj keyfile bkt : string)
    (b : UploadConfigBuilder) :=
  assign b (set_storage
    {| type := "gcp";
       storage_config :=
         GCPCfg {| projectId := proj; keyFilename := keyfile;
                   gcp_bucket := bkt |} |}).

(** [if (!this.config.fileTypes) this.config.fileTypes = {};
     this.config.fileTypes[name] = config]. *)
Definition setFileType (name : string) (cfg : FileTypeConfig)
    (b : UploadConfigBuilder) :=
  assign b (fun c =>
    let ft := match p_fileTypes c with Some o => o | None => Obj.empty end in
    set_fileTypes (Obj.set ft name cfg) c).

Definition setDefaultMaxSize (size : JS.number) (b : UploadConfigBuilder) :=
  assign b (set_defaultMaxSize size).

Definition enableVirusScanning (h0 : string) (p : Z)
    (b : UploadConfigBuilder) :=
  assign b (set_virus
    {| virus_enabled := true;
       virus_config :=
         Some {| clamav := {| host := h0; port := p |} |} |}).

Definition enableCompression (q w hgt : option JS.number)
    (b : UploadConfigBuilder) :=
  assign b (set_compression
    {| compression_enabled := true;
       compression_config :=
         Some {| quality := q; maxWidth := w; maxHeight := hgt |} |}).

Definition enableChunkedUploads (size : option JS.number)
    (b : UploadConfigBuilder) :=
  assign b (set_chunks {| chunks_enabled := true; chunk_size := size |}).

(** The two errors [build()] throws. *)
Inductive ConfigurationError :=
| StorageRequired    (* "Storage configuration is required" *)
| FileTypesRequired. (* "At least one file type configuration is required" *)

Definition five_MiB : Z := 5 * 1024 * 1024.

(** [build()]: checks the two required fields, fills in
    [defaultMaxSize] when it is falsy, and returns [this.config], the
    reference itself. *)
Definition build (b : UploadConfigBuilder) (h : heap)
    : (ConfigurationError + loc) * heap :=
  let c := deref h (config b) in
  match p_storage c with
  | None => (inl StorageRequired, h)
  | Some _ =>
      match p_fileTypes c with
      | None => (inl FileTypesRequired, h)
      | Some _ =>
          let h' :=
            if JS.truthy (p_defaultMaxSize c) then h
            else assign b (set_defaultMaxSize five_MiB) h in
          (inr (config b), h')
      end
  end.

(** The builder's public methods other than [build], as data, so that
    a client's sequence of calls can be quantified over. *)
Inductive Call :=
| UseLocalStorage (dest : string)
| UseS3Storage (key secret reg bkt : string) (ep : option string)
| UseAzureStorage (conn cont : string)
| UseGCPStorage (proj keyfile bkt : string)
| SetFileType (name : string) (cfg : FileTypeConfig)
| SetDefaultMaxSize (size : JS.number)
| EnableVirusScanning (h0 : string) (p : Z)
| EnableCompression (q w hgt : option JS.number)
| EnableChunkedUploads (size : option JS.number).

Definition call (b : UploadConfigBuilder) (k : Call) : heap -> heap :=
  match k with
  | UseLocalStorage d => useLocalStorage d b
  | UseS3Storage a s r bk e => useS3Storage a s r bk e b
  | UseAzureStorage c n => useAzureStorage c n b
  | UseGCPStorage p k bk => useGCPStorage p k bk b
  | SetFileType n c => setFileType n c b
  | SetDefaultMaxSize s => setDefaultMaxSize s b
  | EnableVirusScanning h0 p => enableVirusScanning h0 p b
  | EnableCompression q w hg => enableCompression q w hg b
  | EnableChunkedUploads s => enableChunkedUploads s b
  end.

(** The assignment a call makes to the fields of [this.config]. *)
Definition effect (k : Call) (c : PartialUploadConfig)
    : PartialUploadConfig :=
  match k with
  | UseLocalStorage d =>
      set_storage {| type := "local";
                     storage_config := LocalCfg {| destination := d |} |} c
  | UseS3Storage a s r bk e =>
      set_storage
        {| type := "s3";
           storage_config :=
             S3Cfg {| accessKeyId := a; secretAccessKey := s; region := r;
                      bucket := bk; endpoint := e |} |} c
  | UseAzureStorage cs n =>
      set_storage
        {| type := "azure";
           storage_config :=
             AzureCfg {| connectionString := cs; container := n |} |} c
  | UseGCPStorage p kf bk =>
      set_storage
        {| type := "gcp";
           storage_config :=
             GCPCfg {| projectId := p; keyFilename := kf;
                       gcp_bucket := bk |} |} c
  | SetFileType n ftc =>
      set_fileTypes
        (Obj.set (match p_fileTypes c with Some o => o | None => Obj.empty end)
           n ftc)
        c
  | SetDefaultMaxSize s => set_defaultMaxSize s c
  | EnableVirusScanning h0 p =>
      set_virus
        {| virus_enabled := true;
           virus_config :=
             Some {| clamav := {| host := h0; port := p |} |} |} c
  | EnableCompression q w hg =>
      set_compression
        {| compression_enabled := true;
           compression_config :=
             Some {| quality := q; maxWidth := w; maxHeight := hg |} |} c
  | EnableChunkedUploads s =>
      set_chunks {| chunks_enabled := true; chunk_size := s |} c
  end.

(** A chain [b.k1(..).k2(..)...], first call first. *)
Definition calls (b : UploadConfigBuilder) (ks : list Call) (h : heap)
    : heap :=
  fold_left (fun h k => call b k h) ks h.

(** [UploadModule.forRoot(configCallback)] of upload.module.ts, for a
    callback that makes the calls [ks]: a new builder, the callback,
    then [build()]. *)
Definition forRoot (ks : list Call) (h : heap)
    : (ConfigurationError + loc) * heap :=
  let '(b, h1) := new_builder h in
  build b (calls b ks h1).

(** The last value given to [setDefaultMaxSize] in a chain of calls. *)
Fixpoint lastDefaultMaxSize (ks : list Call) (acc : option JS.number)
    : option JS.number :=
  match ks with
  | [] => acc
  | SetDefaultMaxSize s :: ks' => lastDefaultMaxSize ks' (Some s)
  | _ :: ks' => lastDefaultMaxSize ks' acc
  end.

Definition is_setDefaultMaxSize (k : Call) : bool :=
  match k with SetDefaultMaxSize _ => true | _ => false end.

End Builder.

(** ** upload.service.ts *)

Module UploadService.

Abbreviation bytes := (list byte) (only parsing).

(** The fields of [Express.Multer.File] the service reads. *)
Record File := {
  mimetype : string;
  originalname : string;
  size : Z;
  buffer : bytes
}.

(** Every [throw new Error(...)] site of the service, named after the
    error kind it stands for; [StorageError] and [CollaboratorError] are
    rejections of a collaborator that the service lets through as they
    are, and [TypeError] is the error the runtime raises when a property
    of [undefined] is read. *)
Inductive ErrorKind :=
| UnsupportedFileType     (* validateFile: no file type config *)
| FileTooLarge            (* validateFile: size *)
| InvalidMimeType         (* validateFile: MIME type *)
| InvalidExtension        (* validateFile: extension *)
| TypeError               (* validateFile: a property read on undefined *)
| CompressionError        (* compressImage: catch around toBuffer *)
| ScannerMisconfigured    (* scanForVirus: "ClamAV configuration is missing." *)
| InfectedFile            (* scanForVirus: thrown in the try block *)
| ScanFailed              (* scanForVirus: thrown by the catch block *)
| UnsupportedStorageType  (* storeFile: default case *)
| StorageError            (* fs / S3 / Azure / GCS rejection *)
| CollaboratorError.      (* sharp option check or ClamAV init rejection *)

Record Error := mkError { kind : ErrorKind; message : string }.

Inductive outcome (A : Type) :=
| Return (a : A)
| Throw (e : Error).
Arguments Return {A} a.
Arguments Throw {A} e.

(** The operations queued on a sharp pipeline. *)
Inductive SharpOp :=
| Resize (width height : option JS.number)
                                     (* .resize(w, h, { fit: "inside" }) *)
| Jpeg (q : JS.number).              (* .jpeg({ quality }) *)

(** [new S3Client({...})] and [new PutObjectCommand({...})]. *)
Record S3ClientOptions := {
  client_region : option string;
  client_endpoint : option string;
  client_accessKeyId : option string;
  client_secretAccessKey : option string
}.
Record PutObjectCommand := {
  Bucket : option string;
  Key : string;
  Body : bytes;
  ContentType : string
}.

(** Calls that reach a collaborator, with their arguments. *)
Inductive Event :=
| SharpToBuffer (input : bytes) (ops : list SharpOp)
| ClamInit (h : string) (p : Z) (timeout : Z)
| ClamScanStream (content : bytes)
| FsWriteFile (path : string) (content : bytes)
| S3Send (client : S3ClientOptions) (cmd : PutObjectCommand)
| AzureUpload (conn cont : option string) (blob : string) (content : bytes)
    (len : nat) (blobContentType : string)
| GCPSave (proj keyfile bkt : option string) (name : string)
    (content : bytes) (contentType : string).

(** The collaborators, as the service sees them: each answers a call
    with a result or with the message of the error it raises. *)
Record World := {
  (* sharp: argument checks of resize() and jpeg(), then toBuffer() *)
  sharp_resize_check : option JS.number -> option JS.number -> option string;
  sharp_jpeg_check : JS.number -> option string;
  sharp_toBuffer : bytes -> list SharpOp -> string + bytes;
  (* clamscan *)
  clam_init : string -> Z -> option string;
  clam_scanStream : string -> Z -> bytes -> string + (bool * list string);
  (* path.join and fs.writeFile *)
  path_join : option string -> string -> string + string;
  fs_writeFile : string -> bytes -> option string;
  (* cloud SDKs *)
  s3_send : S3ClientOptions -> PutObjectCommand -> option string;
  azure_blob_client : option string -> option string -> string
                      -> string + string;     (* error, or the blob's url *)
  azure_upload : option string -> option string -> string -> bytes
                 -> option string;
  gcp_save : option string -> option string -> option string -> string
             -> bytes -> option string;
  (* how a template literal prints maxSize / 1024 / 1024 *)
  show_MiB : Z -> string
}.

(** *** The monad of the service: a log of events and a thrown error *)

Definition M (A : Type) : Type := list Event -> outcome A * list Event.

Definition ret {A} (a : A) : M A := fun log => (Return a, log).
Definition throw {A} (e : Error) : M A := fun log => (Throw e, log).
Definition bind {A B} (m : M A) (k : A -> M B) : M B :=
  fun log =>
    match m log with
    | (Return a, log') => k a log'
    | (Throw e, log') => (Throw e, log')
    end.
Definition emit (ev : Event) : M unit := fun log => (Return tt, (log ++ [ev])%list).
Definition lift {A} (o : outcome A) : M A := fun log => (o, log).

(** [try { m } catch (error) { handler(error) }]. *)
Definition try_catch {A} (m : M A) (handler : Error -> M A) : M A :=
  fun log =>
    match m log with
    | (Return a, log') => (Return a, log')
    | (Throw e, log') => handler e log'
    end.

(** Awaiting a collaborator that resolves to nothing, or rejects. *)
Definition await_unit (k : ErrorKind) (r : option string) : M unit :=
  match r with
  | None => ret tt
  | Some msg => throw (mkError k msg)
  end.

Notation "'let*' x ':=' m 'in' k" := (bind m (fun x => k))
  (at level 10, x name, m at level 100, k at level 200).
Notation "m ';;' k" := (bind m (fun _ => k))
  (at level 100, k at level 200, right associativity).

(** Reading a field through a cast [storage.config as XStorageConfig]:
    [undefined] when the object held is of another variant ([bucket] is a
    field of both the S3 and the GCP variant). *)
Definition field_destination (c : BackendConfig) : option string :=
  match c with LocalCfg l => Some (destination l) | _ => None end.
Definition field_accessKeyId (c : BackendConfig) : option string :=
  match c with S3Cfg s => Some (accessKeyId s) | _ => None end.
Definition field_secretAccessKey (c : BackendConfig) : option string :=
  match c with S3Cfg s => Some (secretAccessKey s) | _ => None end.
Definition field_region (c : BackendConfig) : option string :=
  match c with S3Cfg s => Some (region s) | _ => None end.
Definition field_endpoint (c : BackendConfig) : option string :=
  match c with S3Cfg s => endpoint s | _ => None end.
Definition field_bucket (c : BackendConfig) : option string :=
  match c with
  | S3Cfg s => Some (bucket s)
  | GCPCfg g => Some (gcp_bucket g)
  | _ => None
  end.
Definition field_connectionString (c : BackendConfig) : option string :=
  match c with AzureCfg a => Some (connectionString a) | _ => None end.
Definition field_container (c : BackendConfig) : option string :=
  match c with AzureCfg a => Some (container a) | _ => None end.
Definition field_projectId (c : BackendConfig) : option string :=
  match c with GCPCfg g => Some (projectId g) | _ => None end.
Definition field_keyFilename (c : BackendConfig) : option string :=
  match c with GCPCfg g => Some (keyFilename g) | _ => None end.

Section Service.

(** [constructor(@Inject(UPLOAD_CONFIG) private readonly config)], and
    the collaborators the service talks to. *)
Variable W : World.
Variable config : UploadConfig.

(** [file.originalname.split(".").pop()]. *)
Definition extensionOf (name : string) : option string :=
  JS.pop (JS.split "."%char name).

(** The error of [undefined.includes(...)]. *)
Definition includes_of_undefined : Error :=
  mkError TypeError "Cannot read properties of undefined (reading 'includes')".

Definition validateFile (file : File) : outcome unit :=
  (* Get the file type based on its MIME type or extension *)
  let fileTypeConfig :=
    if Obj.truthy (Obj.get (fileTypes config) (mimetype file))
    then Obj.get (fileTypes config) (mimetype file)
    else Obj.get (fileTypes config)
           (JS.toString (extensionOf (originalname file))) in
  (* If no file type config is found, throw an error *)
  if negb (Obj.truthy fileTypeConfig) then
    Throw (mkError UnsupportedFileType
             ("Unsupported file type: " ++ mimetype file))
  else
    let checks :=
      (* Check MIME type *)
      match Obj.allowedMimeTypes_of fileTypeConfig with
      | None => Throw includes_of_undefined
      | Some mimes =>
          if negb (JS.includes mimes (Some (mimetype file))) then
            Throw (mkError InvalidMimeType
                     ("Invalid file MIME type: " ++ mimetype file))
          else
            (* Check file extension *)
            let fileExtension := extensionOf (originalname file) in
            match Obj.allowedExtensions_of fileTypeConfig with
            | None => Throw includes_of_undefined
            | Some extensions =>
                if negb (JS.includes extensions fileExtension) then
                  Throw (mkError InvalidExtension
                           ("Invalid file extension: ."
                            ++ JS.toString fileExtension))
                else Return tt
            end
      end in
    (* Check file size: [file.size > undefined] is false *)
    match Obj.maxSize_of fileTypeConfig with
    | Some limit =>
        if size file >? limit then
          Throw (mkError FileTooLarge
                   ("File size exceeds the maximum allowed size of "
                    ++ show_MiB W limit ++ " MB"))
        else checks
    | None => checks
    end.

(** [this.config.virus?.enabled]. *)
Definition virusEnabled : bool :=
  match virus config with
  | Some v => virus_enabled v
  | None => false
  end.

(** [this.config.compression?.enabled]. *)
Definition compressionEnabled : bool :=
  match compression config with
  | Some c => compression_enabled c
  | None => false
  end.

Definition scanForVirus (file : File) : M unit :=
  if negb virusEnabled then ret tt
  else
    let clamavConfig :=
      match virus config with
      | Some v => match virus_config v with
                  | Some s => Some (clamav s)
                  | None => None
                  end
      | None => None
      end in
    match clamavConfig with
    | None =>
        throw (mkError ScannerMisconfigured "ClamAV configuration is missing.")
    | Some clamavConfig =>
        (* Initialize ClamAV *)
        emit (ClamInit (host clamavConfig) (port clamavConfig) 60000) ;;
        await_unit CollaboratorError
          (clam_init W (host clamavConfig) (port clamavConfig)) ;;
        try_catch
          ((* Scan the file's stream *)
           emit (ClamScanStream (buffer file)) ;;
           match clam_scanStream W (host clamavConfig) (port clamavConfig)
                   (buffer file) with
           | inl msg => throw (mkError CollaboratorError msg)
           | inr (isInfected, viruses) =>
               if isInfected then
                 throw (mkError InfectedFile
                          ("File is infected. Viruses found: "
                           ++ JS.join ", " viruses))
               else ret tt
           end)
          (fun error =>
             throw (mkError ScanFailed
                      ("Virus scan failed: " ++ message error)))
    end.

(** The pipeline [compressImage] queues on [sharp(file.buffer)]. *)
Definition sharpPipeline (s : CompressionSettings) : list SharpOp :=
  ((if JS.truthy (maxWidth s) || JS.truthy (maxHeight s)
    then [Resize (maxWidth s) (maxHeight s)] else [])
   ++
   (match quality s with
    | Some q => if JS.truthy (Some q) then [Jpeg q] else []
    | None => []
    end))%list.

(** [this.config.compression.config || {}]. *)
Definition compressionSettings : CompressionSettings :=
  match compression config with
  | Some c =>
      match compression_config c with
      | Some s => s
      | None => {| quality := None; maxWidth := None; maxHeight := None |}
      end
  | None => {| quality := None; maxWidth := None; maxHeight := None |}
  end.

Definition compressImage (file : File) : M bytes :=
  if negb compressionEnabled then ret (buffer file)
  else
    let s := compressionSettings in
    (* Resize the image if maxWidth or maxHeight are specified *)
    (if JS.truthy (maxWidth s) || JS.truthy (maxHeight s)
     then await_unit CollaboratorError
            (sharp_resize_check W (maxWidth s) (maxHeight s))
     else ret tt) ;;
    (* Set the quality of the image if specified *)
    (match quality s with
     | Some q =>
         if JS.truthy (Some q)
         then await_unit CollaboratorError (sharp_jpeg_check W q)
         else ret tt
     | None => ret tt
     end) ;;
    (* Convert the processed image to a Buffer *)
    emit (SharpToBuffer (buffer file) (sharpPipeline s)) ;;
    match sharp_toBuffer W (buffer file) (sharpPipeline s) with
    | inr out => ret out
    | inl msg =>
        throw (mkError CompressionError ("Image compression failed: " ++ msg))
    end.

Definition storeFileLocally (file : File) (filename : string) : M string :=
  let localConfig := storage_config (storage config) in
  match path_join W (field_destination localConfig) filename with
  | inl msg => throw (mkError StorageError msg)
  | inr filePath =>
      emit (FsWriteFile filePath (buffer file)) ;;
      await_unit StorageError (fs_writeFile W filePath (buffer file)) ;;
      ret filePath
  end.

Definition storeFileToS3 (file : File) (filename : string) : M string :=
  let s3Config := storage_config (storage config) in
  let s3Client :=
    {| client_region := field_region s3Config;
       client_endpoint := field_endpoint s3Config;
       client_accessKeyId := field_accessKeyId s3Config;
       client_secretAccessKey := field_secretAccessKey s3Config |} in
  let command :=
    {| Bucket := field_bucket s3Config;
       Key := filename;
       Body := buffer file;
       ContentType := mimetype file |} in
  emit (S3Send s3Client command) ;;
  await_unit StorageError (s3_send W s3Client command) ;;
  ret ("https://" ++ JS.toString (field_bucket s3Config) ++ ".s3."
       ++ JS.toString (field_region s3Config) ++ ".amazonaws.com/"
       ++ filename).

Definition storeFileToAzure (file : File) (filename : string) : M string :=
  let azureConfig := storage_config (storage config) in
  match azure_blob_client W (field_connectionString azureConfig)
          (field_container azureConfig) filename with
  | inl msg => throw (mkError StorageError msg)
  | inr url =>
      emit (AzureUpload (field_connectionString azureConfig)
              (field_container azureConfig) filename (buffer file)
              (length (buffer file)) (mimetype file)) ;;
      await_unit StorageError
        (azure_upload W (field_connectionString azureConfig)
           (field_container azureConfig) filename (buffer file)) ;;
      ret url
  end.

Definition storeFileToGCP (file : File) (filename : string) : M string :=
  let gcpConfig := storage_config (storage config) in
  emit (GCPSave (field_projectId gcpConfig) (field_keyFilename gcpConfig)
          (field_bucket gcpConfig) filename (buffer file) (mimetype file)) ;;
  await_unit StorageError
    (gcp_save W (field_projectId gcpConfig) (field_keyFilename gcpConfig)
       (field_bucket gcpConfig) filename (buffer file)) ;;
  ret ("https://storage.googleapis.com/"
       ++ JS.toString (field_bucket gcpConfig) ++ "/" ++ filename).

Definition storeFile (file : File) (filename : string) : M string :=
  let t := type (storage config) in
  if String.eqb t "local" then storeFileLocally file filename
  else if String.eqb t "s3" then storeFileToS3 file filename
  else if String.eqb t "azure" then storeFileToAzure file filename
  else if String.eqb t "gcp" then storeFileToGCP file filename
  else throw (mkError UnsupportedStorageType
                ("Unsupported storage type: " ++ t)).

(** [file.buffer = ...]: the assignment to the file object. *)
Definition set_buffer (file : File) (b : bytes) : File :=
  {| mimetype := mimetype file; originalname := originalname file;
     size := size file; buffer := b |}.

(** [uploadFile]: the result [{ url }] is its string. *)
Definition uploadFile (file : File) : M string :=
  lift (validateFile file) ;;
  let* file :=
    (if JS.startsWith "image/" (mimetype file)
     then let* b := compressImage file in ret (set_buffer file b)
     else ret file) in
  (if virusEnabled then scanForVirus file else ret tt) ;;
  let filename := originalname file in
  let* filePath := storeFile file filename in
  ret filePath.

End Service.

(** Events that write to a storage backend. *)
Definition is_storage_event (ev : Event) : bool :=
  match ev with
  | FsWriteFile _ _ | S3Send _ _ | AzureUpload _ _ _ _ _ _
  | GCPSave _ _ _ _ _ _ => true
  | _ => false
  end.

(** The content an event hands to the scanner or to a storage backend. *)
Definition payload (ev : Event) : option bytes :=
  match ev with
  | ClamScanStream c => Some c
  | FsWriteFile _ c => Some c
  | S3Send _ cmd => Some (Body cmd)
  | AzureUpload _ _ _ c _ _ => Some c
  | GCPSave _ _ _ _ c _ => Some c
  | SharpToBuffer _ _ | ClamInit _ _ _ => None
  end.

Definition is_codec_event (ev : Event) : bool :=
  match ev with SharpToBuffer _ _ => true | _ => false end.

(** Running a call of the service from an empty log. *)
Definition run {A} (m : M A) : outcome A * list Event := m [].

End UploadService.

(** ** Concrete policies, files and collaborators *)

Module Examples.

Import UploadService.

(** Collaborators that accept everything: the codec returns its input,
    the scanner finds nothing, every backend acknowledges. *)
Definition quiet : World :=
  {| sharp_resize_check := fun _ _ => None;
     sharp_jpeg_check := fun _ => None;
     sharp_toBuffer := fun b _ => inr b;
     clam_init := fun _ _ => None;
     clam_scanStream := fun _ _ _ => inr (false, []);
     path_join := fun d f => inr (JS.toString d ++ "/" ++ f);
     fs_writeFile := fun _ _ => None;
     s3_send := fun _ _ => None;
     azure_blob_client := fun _ _ f => inr f;
     azure_upload := fun _ _ _ _ => None;
     gcp_save := fun _ _ _ _ _ => None;
     show_MiB := fun _ => "1" |}.

(** As [quiet], with a scanner that reports one signature. *)
Definition infected : World :=
  {| sharp_resize_check := sharp_resize_check quiet;
     sharp_jpeg_check := sharp_jpeg_check quiet;
     sharp_toBuffer := sharp_toBuffer quiet;
     clam_init := clam_init quiet;
     clam_scanStream := fun _ _ _ => inr (true, ["Eicar-Test-Signature"]);
     path_join := path_join quiet;
     fs_writeFile := fs_writeFile quiet;
     s3_send := s3_send quiet;
     azure_blob_client := azure_blob_client quiet;
     azure_upload := azure_upload quiet;
     gcp_save := gcp_save quiet;
     show_MiB := show_MiB quiet |}.

(** fileTypes["image/png"] = { maxSize: 1 MB, ["image/png"], ["png"] }. *)
Definition png_type : FileTypeConfig :=
  {| maxSize := 1024 * 1024;
     allowedMimeTypes := ["image/png"];
     allowedExtensions := ["png"] |}.

Definition s3_storage (ep : option string) : StorageConfig :=
  {| type := "s3";
     storage_config :=
       S3Cfg {| accessKeyId := "AKIA"; secretAccessKey := "secret";
                region := "eu-west-1"; bucket := "media"; endpoint := ep |} |}.

Definition png_policy (ep : option string) (v : option VirusConfig)
    : UploadConfig :=
  {| storage := s3_storage ep;
     fileTypes := Obj.plain {[ "image/png" := png_type ]};
     defaultMaxSize := Builder.five_MiB;
     virus := v;
     compression := None;
     chunks := None |}.

Definition scanning : VirusConfig :=
  {| virus_enabled := true;
     virus_config :=
       Some {| clamav := {| host := "localhost"; port := 3310 |} |} |}.

Definition a_png : File :=
  {| mimetype := "image/png"; originalname := "a.png"; size := 500 * 1024;
     buffer := [x89; x50; x4e; x47] |}.

(** A file named [png]: no dot in the name. *)
Definition dotless_png : File :=
  {| mimetype := "image/png"; originalname := "png"; size := 500 * 1024;
     buffer := [x89; x50; x4e; x47] |}.

(** Too large, of a MIME type the entry does not allow, and with an
    extension it does not allow; the entry is found through the
    extension key. *)
Definition gif_type : FileTypeConfig :=
  {| maxSize := 10; allowedMimeTypes := ["image/gif"];
     allowedExtensions := ["gif"] |}.
Definition ext_policy : UploadConfig :=
  {| storage := s3_storage None;
     fileTypes := Obj.plain {[ "bmp" := gif_type ]};
     defaultMaxSize := 1;
     virus := None; compression := None; chunks := None |}.
Definition all_wrong : File :=
  {| mimetype := "image/x-ms-bmp"; originalname := "b.bmp"; size := 11;
     buffer := [] |}.

(** A plain-text file no entry covers. *)
Definition notes_txt : File :=
  {| mimetype := "text/plain"; originalname := "notes.txt"; size := 3;
     buffer := [x61; x62; x63] |}.

(** Chains of builder calls. *)
Definition minimal_calls : list Builder.Call :=
  [Builder.UseLocalStorage "uploads"; Builder.SetFileType "image/png" png_type].

Definition scanning_calls : list Builder.Call :=
  [Builder.UseLocalStorage "uploads";
   Builder.SetFileType "image/png" png_type;
   Builder.EnableVirusScanning "localhost" 3310].

(** The policy [build()] returns after [scanning_calls]. *)
Definition scanning_local_policy : UploadConfig :=
  {| storage :=
       {| type := "local";
          storage_config := LocalCfg {| destination := "uploads" |} |};
     fileTypes := Obj.plain {[ "image/png" := png_type ]};
     defaultMaxSize := Builder.five_MiB;
     virus := Some scanning;
     compression := None;
     chunks := None |}.

(** [enableCompression(quality, 800, 600)] on top of [png_policy]. *)
Definition resizing_policy (q : option JS.number) : UploadConfig :=
  {| storage := s3_storage None;
     fileTypes := Obj.plain {[ "image/png" := png_type ]};
     defaultMaxSize := Builder.five_MiB;
     virus := None;
     compression :=
       Some {| compression_enabled := true;
               compression_config :=
                 Some {| quality := q; maxWidth := Some 800;
                         maxHeight := Some 600 |} |};
     chunks := None |}.

End Examples.

(** ** The validation order, as the specification words it *)

Module ValidatorSpec.

Import UploadService.

(** A probe [fileTypes[key]] finds nothing the code takes: it is
    [undefined] (or falsy). *)
Definition misses (cfg : UploadConfig) (key : string) : Prop :=
  Obj.truthy (Obj.get (fileTypes cfg) key) = false.

(** The entry a file resolves to: the one under its MIME type, and
    only when that probe misses, the one under its extension. *)
Definition resolved (cfg : UploadConfig) (file : File) (c : FileTypeConfig)
    : Prop :=
  Obj.get (fileTypes cfg) (mimetype file) = Some (Obj.Config c)
  \/ (misses cfg (mimetype file)
      /\ Obj.get (fileTypes cfg)
           (JS.toString (extensionOf (originalname file)))
         = Some (Obj.Config c)).

(** The probes settle on something that is no entry: a member the
    object inherits. *)
Definition lands_on_inherited (cfg : UploadConfig) (file : File)
    (v : Obj.Value) : Prop :=
  (Obj.get (fileTypes cfg) (mimetype file) = Some v
   \/ (misses cfg (mimetype file)
       /\ Obj.get (fileTypes cfg)
            (JS.toString (extensionOf (originalname file))) = Some v))
  /\ Obj.truthy (Some v) = true
  /\ forall c, v <> Obj.Config c.

Definition mime_allowed (c : FileTypeConfig) (file : File) : Prop :=
  In (mimetype file) (allowedMimeTypes c).

Definition extension_allowed (c : FileTypeConfig) (file : File) : Prop :=
  exists e, extensionOf (originalname file) = Some e
            /\ In e (allowedExtensions c).

(** The four checks in their order; [None] is acceptance. *)
Inductive verdict (cfg : UploadConfig) (file : File)
    : option ErrorKind -> Prop :=
| verdict_unsupported :
    misses cfg (mimetype file) ->
    misses cfg (JS.toString (extensionOf (originalname file))) ->
    verdict cfg file (Some UnsupportedFileType)
| verdict_too_large c :
    resolved cfg file c ->
    size file > maxSize c ->
    verdict cfg file (Some FileTooLarge)
| verdict_mime c :
    resolved cfg file c ->
    size file <= maxSize c ->
    ~ mime_allowed c file ->
    verdict cfg file (Some InvalidMimeType)
| verdict_extension c :
    resolved cfg file c ->
    size file <= maxSize c ->
    mime_allowed c file ->
    ~ extension_allowed c file ->
    verdict cfg file (Some InvalidExtension)
| verdict_accept c :
    resolved cfg file c ->
    size file <= maxSize c ->
    mime_allowed c file ->
    extension_allowed c file ->
    verdict cfg file None.

(** The kind of the error a call ended with, if it threw. *)
Definition kindOf {A} (o : outcome A) : option ErrorKind :=
  match o with
  | Return _ => None
  | Throw e => Some (kind e)
  end.

End ValidatorSpec.

(** ** Policies and files that differ in one field *)

Module Vary.

Import UploadService.

Definition with_defaultMaxSize (d : JS.number) (cfg : UploadConfig)
    : UploadConfig :=
  {| storage := storage cfg; fileTypes := fileTypes cfg;
     defaultMaxSize := d; virus := virus cfg;
     compression := compression cfg; chunks := chunks cfg |}.

Definition with_compression (c : option CompressionConfig)
    (cfg : UploadConfig) : UploadConfig :=
  {| storage := storage cfg; fileTypes := fileTypes cfg;
     defaultMaxSize := defaultMaxSize cfg; virus := virus cfg;
     compression := c; chunks := chunks cfg |}.

Definition with_size (n : Z) (file : File) : File :=
  {| mimetype := mimetype file; originalname := originalname file;
     size := n; buffer := buffer file |}.

(** The pipeline of [uploadFile] with the compression stage taken out. *)
Definition upload_without_compression (W : World) (cfg : UploadConfig)
    (file : File) : M string :=
  lift (validateFile W cfg file) ;;
  (if virusEnabled cfg then scanForVirus W cfg file else ret tt) ;;
  storeFile W cfg file (originalname file).

(** What [enableCompression(quality, maxWidth, maxHeight)] stores. *)
Definition compression_of (q w hgt : option JS.number)
    : CompressionConfig :=
  {| compression_enabled := true;
     compression_config :=
       Some {| quality := q; maxWidth := w; maxHeight := hgt |} |}.

End Vary.

(** ** What a stage logs and throws *)

Module Stages.

Import UploadService.

(** [emits P m]: run from any log, [m] only appends events, and every
    event it appends satisfies [P]. *)
Definition emits {A} (P : Event -> Prop) (m : M A) : Prop :=
  forall log, exists evs, snd (m log) = (log ++ evs)%list /\ Forall P evs.

(** Events of each stage. *)
Definition scan_event (file : File) (ev : Event) : Prop :=
  (exists h p t, ev = ClamInit h p t) \/ ev = ClamScanStream (buffer file).

Definition codec_event (cfg : UploadConfig) (file : File) (ev : Event)
    : Prop :=
  ev = SharpToBuffer (buffer file) (sharpPipeline (compressionSettings cfg)).

Definition store_event (file : File) (ev : Event) : Prop :=
  is_storage_event ev = true /\ payload ev = Some (buffer file).

(** [throws K m]: every error [m] ends with satisfies [K]. *)
Definition throws {A} (K : Error -> Prop) (m : M A) : Prop :=
  forall log e log', m log = (Throw e, log') -> K e.

Definition codec_error (e : Error) : Prop :=
  kind e = CompressionError \/ kind e = CollaboratorError.

(** Every policy the builder holds has its scanner configured when
    scanning is enabled. *)
Definition scanner_configured (v : option VirusConfig) : Prop :=
  forall x, v = Some x ->
            virus_enabled x = true -> exists s, virus_config x = Some s.

End Stages.

(** ** Reading a chain of builder calls *)

Module Chain.

Import Builder.

(** The [StorageConfig] a [use...Storage] call assigns. *)
Definition storage_of (k : Call) : option StorageConfig :=
  match k with
  | UseLocalStorage d =>
      Some {| type := "local";
              storage_config := LocalCfg {| destination := d |} |}
  | UseS3Storage a s r bk e =>
      Some {| type := "s3";
              storage_config :=
                S3Cfg {| accessKeyId := a; secretAccessKey := s;
                         region := r; bucket := bk; endpoint := e |} |}
  | UseAzureStorage cs n =>
      Some {| type := "azure";
              storage_config :=
                AzureCfg {| connectionString := cs; container := n |} |}
  | UseGCPStorage p kf bk =>
      Some {| type := "gcp";
              storage_config :=
                GCPCfg {| projectId := p; keyFilename := kf;
                          gcp_bucket := bk |} |}
  | _ => None
  end.

Definition is_storage_call (k : Call) : bool :=
  match storage_of k with Some _ => true | None => false end.

Definition is_setFileType (k : Call) : bool :=
  match k with SetFileType _ _ => true | _ => false end.

(** The storage chosen by the last [use...Storage] call of a chain. *)
Fixpoint lastStorage (ks : list Call) (acc : option StorageConfig)
    : option StorageConfig :=
  match ks with
  | [] => acc
  | k :: ks' =>
      lastStorage ks' (match storage_of k with Some st => Some st | None => acc end)
  end.

(** The entry the last [setFileType(name, ...)] call of a chain gave
    to the key [name]. *)
Fixpoint lastFileType (name : string) (ks : list Call)
    (acc : option FileTypeConfig) : option FileTypeConfig :=
  match ks with
  | [] => acc
  | SetFileType n c :: ks' =>
      lastFileType name ks' (if String.eqb n name then Some c else acc)
  | _ :: ks' => lastFileType name ks' acc
  end.

(** The tag of a [StorageConfig] names the variant it holds. *)
Definition well_tagged (st : StorageConfig) : Prop :=
  match storage_config st with
  | LocalCfg _ => type st = "local"
  | S3Cfg _ => type st = "s3"
  | AzureCfg _ => type st = "azure"
  | GCPCfg _ => type st = "gcp"
  end.

(** Calls that assign a field [uploadFile] reads: all but
    [setDefaultMaxSize] and [enableChunkedUploads]. *)
Definition read_by_uploadFile (k : Call) : bool :=
  match k with
  | SetDefaultMaxSize _ | EnableChunkedUploads _ => false
  | _ => true
  end.

Definition is_enableVirusScanning (k : Call) : bool :=
  match k with EnableVirusScanning _ _ => true | _ => false end.

Definition is_enableCompression (k : Call) : bool :=
  match k with EnableCompression _ _ _ => true | _ => false end.

End Chain.

(** ** The stages of [uploadFile] *)

Module Pipeline.

Import UploadService.

(** [if (file.mimetype.startsWith("image/")) file.buffer = await
    this.compressImage(file)], yielding the file as it goes on. *)
Definition compressStage (W : World) (cfg : UploadConfig) (file : File)
    : M File :=
  if JS.startsWith "image/" (mimetype file)
  then let* b := compressImage W cfg file in ret (set_buffer file b)
  else ret file.

(** [if (this.config.virus?.enabled) await this.scanForVirus(file)]. *)
Definition scanStage (W : World) (cfg : UploadConfig) (file : File)
    : M unit :=
  if virusEnabled cfg then scanForVirus W cfg file else ret tt.

(** Calls to the ClamAV client. *)
Definition is_scanner_event (ev : Event) : bool :=
  match ev with
  | ClamInit _ _ _ | ClamScanStream _ => true
  | _ => false
  end.

(** [returns Q m]: every value [m] returns satisfies [Q]. *)
Definition returns {A} (Q : A -> Prop) (m : M A) : Prop :=
  forall log a log', m log = (Return a, log') -> Q a.

(** The buffer that leaves the compression stage: the input, or what
    the codec made of it. *)
Definition compressed (W : World) (cfg : UploadConfig) (file : File)
    (out : list byte) : Prop :=
  (compressionEnabled cfg = false /\ out = buffer file)
  \/ (compressionEnabled cfg = true
      /\ sharp_toBuffer W (buffer file)
           (sharpPipeline (compressionSettings cfg)) = inr out).

(** The buffer the scanner and the storage backend are given. *)
Definition stage_output (W : World) (cfg : UploadConfig) (file : File)
    (out : list byte) : Prop :=
  (JS.startsWith "image/" (mimetype file) = false /\ out = buffer file)
  \/ (JS.startsWith "image/" (mimetype file) = true
      /\ compressed W cfg file out).

(** What a run of [uploadFile] logs: codec calls, then scanner calls,
    then storage calls. *)
Record staged (W : World) (cfg : UploadConfig) (file : File)
    (codec scanner store : list Event) : Prop := {
  staged_codec : Forall (fun ev => is_codec_event ev = true) codec;
  staged_scanner :
    Forall (fun ev => is_scanner_event ev = true
                      /\ forall c, payload ev = Some c
                                   -> stage_output W cfg file c) scanner;
  staged_store :
    Forall (fun ev => is_storage_event ev = true
                      /\ forall c, payload ev = Some c
                                   -> stage_output W cfg file c) store;
  staged_codec_once : (length codec <= 1)%nat;
  staged_scanner_twice : (length scanner <= 2)%nat;
  staged_store_once : (length store <= 1)%nat;
  staged_scanner_off : virusEnabled cfg = false -> scanner = []
}.

End Pipeline.

(** ** More collaborators and policies *)

Module Cases.

Import UploadService.

(** [W] with another codec. *)
Definition with_toBuffer
    (f : list byte -> list SharpOp -> string + list byte) (W : World)
    : World :=
  {| sharp_resize_check := sharp_resize_check W;
     sharp_jpeg_check := sharp_jpeg_check W;
     sharp_toBuffer := f;
     clam_init := clam_init W;
     clam_scanStream := clam_scanStream W;
     path_join := path_join W;
     fs_writeFile := fs_writeFile W;
     s3_send := s3_send W;
     azure_blob_client := azure_blob_client W;
     azure_upload := azure_upload W;
     gcp_save := gcp_save W;
     show_MiB := show_MiB W |}.

(** [W] with another ClamAV client. *)
Definition with_scanner (i : string -> Z -> option string)
    (sc : string -> Z -> list byte -> string + (bool * list string))
    (W : World) : World :=
  {| sharp_resize_check := sharp_resize_check W;
     sharp_jpeg_check := sharp_jpeg_check W;
     sharp_toBuffer := sharp_toBuffer W;
     clam_init := i;
     clam_scanStream := sc;
     path_join := path_join W;
     fs_writeFile := fs_writeFile W;
     s3_send := s3_send W;
     azure_blob_client := azure_blob_client W;
     azure_upload := azure_upload W;
     gcp_save := gcp_save W;
     show_MiB := show_MiB W |}.

(** A codec that answers two bytes whatever it is given. *)
Definition shrinking : World :=
  with_toBuffer (fun _ _ => inr [xff; xd8]) Examples.quiet.

(** A codec that cannot decode its input. *)
Definition broken_codec : World :=
  with_toBuffer (fun _ _ => inl "Input buffer contains unsupported image format")
    Examples.quiet.

(** A scanner whose daemon drops the connection during the scan. *)
Definition dropped_scan : World :=
  with_scanner (fun _ _ => None) (fun _ _ _ => inl "ECONNRESET")
    Examples.quiet.

(** A scanner whose daemon cannot be reached at all. *)
Definition unreachable_scanner : World :=
  with_scanner (fun _ _ => Some "ECONNREFUSED")
    (fun _ _ _ => inr (false, [])) Examples.quiet.

(** An S3 endpoint that refuses the put. *)
Definition denied_put : World :=
  {| sharp_resize_check := sharp_resize_check Examples.quiet;
     sharp_jpeg_check := sharp_jpeg_check Examples.quiet;
     sharp_toBuffer := sharp_toBuffer Examples.quiet;
     clam_init := clam_init Examples.quiet;
     clam_scanStream := clam_scanStream Examples.quiet;
     path_join := path_join Examples.quiet;
     fs_writeFile := fs_writeFile Examples.quiet;
     s3_send := fun _ _ => Some "AccessDenied";
     azure_blob_client := azure_blob_client Examples.quiet;
     azure_upload := azure_upload Examples.quiet;
     gcp_save := gcp_save Examples.quiet;
     show_MiB := show_MiB Examples.quiet |}.

(** A text file whose extension is the name of a member every object
    inherits. *)
Definition x_constructor : File :=
  {| mimetype := "text/plain"; originalname := "x.constructor"; size := 3;
     buffer := [x61; x62; x63] |}.

Definition policy_on (st : StorageConfig) : UploadConfig :=
  {| storage := st;
     fileTypes := Obj.plain {[ "image/png" := Examples.png_type ]};
     defaultMaxSize := Builder.five_MiB;
     virus := None; compression := None; chunks := None |}.

Definition local_storage : StorageConfig :=
  {| type := "local";
     storage_config := LocalCfg {| destination := "uploads" |} |}.

Definition gcp_storage : StorageConfig :=
  {| type := "gcp";
     storage_config :=
       GCPCfg {| projectId := "proj"; keyFilename := "key.json";
                 gcp_bucket := "assets" |} |}.

Definition azure_storage : StorageConfig :=
  {| type := "azure";
     storage_config :=
       AzureCfg {| connectionString := "UseDevelopmentStorage=true";
                   container := "media" |} |}.

End Cases.

(** * Properties *)

Import UploadService ValidatorSpec Vary Stages Chain Pipeline.

(** ** JavaScript helpers *)

Lemma split_not_empty c s : JS.split c s <> [].
Proof.
  destruct s as [|a s]; simpl; [discriminate|].
  destruct (Ascii.eqb a c); [discriminate|].
  destruct (JS.split c s); discriminate.
Qed.

Lemma pop_split_defined c s : exists e, JS.pop (JS.split c s) = Some e.
Proof.
  unfold JS.pop. destruct (last (JS.split c s)) eqn:E; [eauto|].
  apply last_None in E. exfalso. eapply split_not_empty; eauto.
Qed.

Lemma split_without_separator c s :
  JS.contains c s = false -> JS.split c s = [s].
Proof.
  induction s as [|a s IH]; simpl; [reflexivity|].
  destruct (Ascii.eqb a c); simpl; [discriminate|].
  intros H. rewrite (IH H). reflexivity.
Qed.

Lemma extensionOf_defined name : exists e, extensionOf name = Some e.
Proof. apply pop_split_defined. Qed.

Lemma extensionOf_dotless name :
  JS.contains "."%char name = false -> extensionOf name = Some name.
Proof.
  intros H. unfold extensionOf. rewrite (split_without_separator _ _ H).
  reflexivity.
Qed.

Lemma includes_In l s : JS.includes l (Some s) = true <-> In s l.
Proof.
  simpl. rewrite existsb_exists. split.
  - intros (x & Hx & E). apply String.eqb_eq in E. subst. exact Hx.
  - intros H. exists s. split; [exact H|apply String.eqb_refl].
Qed.

Lemma includes_mime c file :
  JS.includes (allowedMimeTypes c) (Some (mimetype file)) = true
  <-> mime_allowed c file.
Proof. apply includes_In. Qed.

Lemma includes_extension c file :
  JS.includes (allowedExtensions c) (extensionOf (originalname file)) = true
  <-> extension_allowed c file.
Proof.
  unfold extension_allowed.
  destruct (extensionOf (originalname file)) as [e|] eqn:E.
  - rewrite includes_In. split; [eauto|].
    intros (e' & He & Hin). congruence.
  - simpl. split; [discriminate|]. intros (e' & He & _). discriminate.
Qed.

(** ** Validator *)

(** What [validateFile] does once the entry is known. *)
Lemma validateFile_resolved W cfg file c :
  resolved cfg file c ->
  validateFile W cfg file =
    if size file >? maxSize c then
      Throw (mkError FileTooLarge
               ("File size exceeds the maximum allowed size of "
                ++ show_MiB W (maxSize c) ++ " MB"))
    else if negb (JS.includes (allowedMimeTypes c) (Some (mimetype file)))
    then Throw (mkError InvalidMimeType
                  ("Invalid file MIME type: " ++ mimetype file))
    else if negb (JS.includes (allowedExtensions c)
                    (extensionOf (originalname file)))
    then Throw (mkError InvalidExtension
                  ("Invalid file extension: ."
                   ++ JS.toString (extensionOf (originalname file))))
    else Return tt.
Proof.
  unfold validateFile, resolved, misses. intros [Hm | [Hm He]].
  - rewrite Hm. reflexivity.
  - rewrite Hm, He. reflexivity.
Qed.

Lemma validateFile_unresolved W cfg file :
  misses cfg (mimetype file) ->
  misses cfg (JS.toString (extensionOf (originalname file))) ->
  validateFile W cfg file =
    Throw (mkError UnsupportedFileType
             ("Unsupported file type: " ++ mimetype file)).
Proof. unfold validateFile, misses. intros -> ->. reflexivity. Qed.

(** A probe that lands on an inherited member passes the
    unsupported-type test and the size test, and fails on reading
    [allowedMimeTypes] of it. *)
Lemma validateFile_inherited W cfg file v :
  lands_on_inherited cfg file v ->
  validateFile W cfg file = Throw includes_of_undefined.
Proof.
  unfold validateFile, lands_on_inherited, misses.
  intros ([Hm | [Hm He]] & Ht & Hv).
  - rewrite Hm, Ht. destruct v; simpl in *; rewrite ?Ht; try reflexivity.
    destruct (Hv c eq_refl).
  - rewrite Hm, He. destruct v; simpl in *; rewrite ?Ht; try reflexivity.
    destruct (Hv c eq_refl).
Qed.

Lemma resolved_or_not cfg file :
  (exists c, resolved cfg file c)
  \/ (misses cfg (mimetype file)
      /\ misses cfg (JS.toString (extensionOf (originalname file))))
  \/ (exists v, lands_on_inherited cfg file v).
Proof.
  unfold resolved, lands_on_inherited, misses.
  destruct (Obj.truthy (Obj.get (fileTypes cfg) (mimetype file))) eqn:Tm.
  - destruct (Obj.get (fileTypes cfg) (mimetype file)) as [v|] eqn:Hm;
      [|discriminate].
    destruct v as [c| | |]; [left; eauto|..];
      right; right; eexists; (split; [left; reflexivity|]);
      (split; [exact Tm|discriminate]).
  - destruct (Obj.truthy (Obj.get (fileTypes cfg)
                (JS.toString (extensionOf (originalname file))))) eqn:Te;
      [|auto].
    destruct (Obj.get (fileTypes cfg)
                (JS.toString (extensionOf (originalname file))))
      as [v|] eqn:He; [|discriminate].
    destruct v as [c| | |]; [left; eauto|..];
      right; right; eexists; (split; [right; split; reflexivity|]);
      (split; [exact Te|discriminate]).
Qed.

Lemma resolved_functional cfg file c c' :
  resolved cfg file c -> resolved cfg file c' -> c = c'.
Proof.
  unfold resolved, misses.
  intros [H|[H1 H2]] [H'|[H1' H2']]; try congruence.
  - rewrite H in H1'. discriminate.
  - rewrite H' in H1. discriminate.
Qed.

Lemma resolved_not_missed cfg file c :
  resolved cfg file c ->
  misses cfg (mimetype file) ->
  misses cfg (JS.toString (extensionOf (originalname file))) -> False.
Proof.
  unfold resolved, misses. intros [H|[_ H]] Hm He.
  - rewrite H in Hm. discriminate.
  - rewrite H in He. discriminate.
Qed.

Lemma validateFile_verdict_resolved W cfg file c :
  resolved cfg file c -> verdict cfg file (kindOf (validateFile W cfg file)).
Proof.
  intros Hc. rewrite (validateFile_resolved W _ _ _ Hc).
  destruct (size file >? maxSize c) eqn:Hs.
  { apply (verdict_too_large _ _ c Hc). apply Z.gtb_lt in Hs. lia. }
  assert (size file <= maxSize c) by (rewrite Z.gtb_ltb, Z.ltb_ge in Hs; lia).
  destruct (JS.includes (allowedMimeTypes c) _) eqn:Hi; simpl.
  2:{ apply (verdict_mime _ _ c Hc); [assumption|].
      rewrite <- includes_mime. congruence. }
  apply includes_mime in Hi.
  destruct (JS.includes (allowedExtensions c) _) eqn:Hx; simpl.
  + apply (verdict_accept _ _ c Hc); try assumption.
    apply includes_extension. exact Hx.
  + apply (verdict_extension _ _ c Hc); try assumption.
    rewrite <- includes_extension. congruence.
Qed.

Lemma validateFile_verdict_missed W cfg file :
  misses cfg (mimetype file) ->
  misses cfg (JS.toString (extensionOf (originalname file))) ->
  verdict cfg file (kindOf (validateFile W cfg file)).
Proof.
  intros Hm He. rewrite (validateFile_unresolved W _ _ Hm He). simpl.
  apply verdict_unsupported; assumption.
Qed.

Lemma verdict_functional cfg file k k' :
  verdict cfg file k -> verdict cfg file k' -> k = k'.
Proof.
  intros H H'.
  destruct H; destruct H'; try reflexivity;
    try (exfalso; eapply resolved_not_missed; eassumption);
    match goal with
    | H1 : resolved _ _ ?a, H2 : resolved _ _ ?b |- _ =>
        pose proof (resolved_functional _ _ _ _ H1 H2); subst
    end; first [ lia | contradiction ].
Qed.

(** The kinds of the errors [validateFile] throws. *)
Lemma validateFile_throws W cfg file e :
  validateFile W cfg file = Throw e ->
  kind e = UnsupportedFileType \/ kind e = FileTooLarge
  \/ kind e = InvalidMimeType \/ kind e = InvalidExtension
  \/ kind e = TypeError.
Proof.
  intros H.
  destruct (resolved_or_not cfg file) as [[c Hc]|[[Hm He]|[v Hv]]].
  - pose proof (validateFile_verdict_resolved W cfg file c Hc) as Hk.
    rewrite H in Hk. simpl in Hk. inversion Hk; auto.
  - rewrite (validateFile_unresolved W _ _ Hm He) in H.
    injection H as <-. auto.
  - rewrite (validateFile_inherited W _ _ _ Hv) in H.
    injection H as <-. simpl. auto.
Qed.

(** C2 (the code departs from the claim). Whenever the two probes
    settle on an entry or both miss, [validateFile] follows the
    claimed order: the entry is looked up under the MIME type and,
    only when that misses, under the extension, and the kind reported
    is the single verdict of the ordered rules (unsupported type, size,
    MIME type, extension). But a probe also finds what the [fileTypes]
    object inherits: when it lands on such a member the code takes it
    for the entry, passes the unsupported-type and size tests, and
    fails with the runtime's TypeError on reading its
    [allowedMimeTypes], which is none of the claimed kinds. *)
Theorem validateFile_first_failure_wins W cfg file :
  ((exists c, resolved cfg file c)
   \/ (misses cfg (mimetype file)
       /\ misses cfg (JS.toString (extensionOf (originalname file)))) ->
   forall k, verdict cfg file k <-> kindOf (validateFile W cfg file) = k)
  /\ (forall v, lands_on_inherited cfg file v ->
        kindOf (validateFile W cfg file) = Some TypeError
        /\ forall k, ~ verdict cfg file k).
Proof.
  split.
  - intros Hcase k.
    assert (Hv : verdict cfg file (kindOf (validateFile W cfg file))).
    { destruct Hcase as [[c Hc]|[Hm He]].
      - apply (validateFile_verdict_resolved W cfg file c Hc).
      - apply (validateFile_verdict_missed W cfg file Hm He). }
    split.
    + intros H. eapply verdict_functional; [exact Hv|exact H].
    + intros <-. exact Hv.
  - intros v Hv. split.
    + rewrite (validateFile_inherited W _ _ _ Hv). reflexivity.
    + assert (Hno : forall c, ~ resolved cfg file c).
      { intros c Hc. destruct Hv as ([Hm|[Hm He]] & Ht & Hne);
          unfold resolved, misses in *; destruct Hc as [Hc|[Hc1 Hc2]].
        - rewrite Hm in Hc. injection Hc as ->. destruct (Hne c eq_refl).
        - rewrite Hm in Hc1. congruence.
        - rewrite Hc in Hm. discriminate.
        - rewrite He in Hc2. injection Hc2 as ->. destruct (Hne c eq_refl). }
      intros k Hk. destruct Hk;
        try (eapply Hno; eassumption).
      destruct Hv as ([Hm|[Hm He]] & Ht & _); unfold misses in *; congruence.
Qed.

Lemma validateFile_first_failure_wins_witness :
  lands_on_inherited (Examples.png_policy None None) Cases.x_constructor
    Obj.Builtin
  /\ kindOf (validateFile Examples.quiet (Examples.png_policy None None)
               Cases.x_constructor) = Some TypeError
  /\ (forall k,
        verdict Examples.ext_policy Examples.all_wrong k
        <-> kindOf (validateFile Examples.quiet Examples.ext_policy
                      Examples.all_wrong) = k).
Proof.
  assert (H : lands_on_inherited (Examples.png_policy None None)
                Cases.x_constructor Obj.Builtin).
  { split; [right; split; reflexivity|]. split; [reflexivity|discriminate]. }
  split; [exact H|]. split.
  - apply (proj2 (validateFile_first_failure_wins Examples.quiet
                    (Examples.png_policy None None) Cases.x_constructor)
             Obj.Builtin H).
  - apply (proj1 (validateFile_first_failure_wins Examples.quiet
                    Examples.ext_policy Examples.all_wrong)).
    left. exists Examples.gif_type. right. split; reflexivity.
Defined.

Example several_failures_report_the_size :
  kindOf (validateFile Examples.quiet Examples.ext_policy Examples.all_wrong)
  = Some FileTooLarge.
Proof. reflexivity. Qed.

(** C3, as claimed, fails: a name without a dot is its own extension,
    and a file named [png] passes a policy that allows the extension
    [png]. *)
Lemma dotless_name_can_pass_validation :
  ~ (forall W cfg file c,
        JS.contains "."%char (originalname file) = false ->
        resolved cfg file c ->
        size file <= maxSize c ->
        mime_allowed c file ->
        kindOf (validateFile W cfg file) = Some InvalidExtension).
Proof.
  intros H.
  specialize (H Examples.quiet (Examples.png_policy None None)
                Examples.dotless_png Examples.png_type).
  assert (E : kindOf (validateFile Examples.quiet
                        (Examples.png_policy None None) Examples.dotless_png)
              = None) by reflexivity.
  rewrite H in E; [discriminate| reflexivity | left; reflexivity
                  | vm_compute; discriminate | left; reflexivity].
Qed.

(** C3, amended. For a file whose name holds no dot, the extension the
    validator extracts is the whole name (never undefined); when
    validation reaches the extension check it throws [InvalidExtension]
    if that name is not among [allowedExtensions], and accepts the file
    if it is. *)
Theorem dotless_name_is_its_own_extension W cfg file c :
  JS.contains "."%char (originalname file) = false ->
  resolved cfg file c ->
  size file <= maxSize c ->
  mime_allowed c file ->
  extensionOf (originalname file) = Some (originalname file)
  /\ (~ In (originalname file) (allowedExtensions c) ->
      validateFile W cfg file =
        Throw (mkError InvalidExtension
                 ("Invalid file extension: ." ++ originalname file)))
  /\ (In (originalname file) (allowedExtensions c) ->
      validateFile W cfg file = Return tt).
Proof.
  intros Hdot Hres Hsize Hmime.
  pose proof (extensionOf_dotless _ Hdot) as Hext.
  split; [exact Hext|].
  rewrite (validateFile_resolved W _ _ _ Hres), Hext.
  assert (Hs : (size file >? maxSize c) = false)
    by (rewrite Z.gtb_ltb; apply Z.ltb_ge; lia).
  apply includes_mime in Hmime. rewrite Hs, Hmime. simpl negb at 1.
  cbv iota. split; intros Hin.
  - destruct (JS.includes (allowedExtensions c) (Some (originalname file)))
      eqn:E; [apply includes_In in E; contradiction|reflexivity].
  - apply includes_In in Hin. rewrite Hin. reflexivity.
Qed.

Lemma dotless_name_is_its_own_extension_witness :
  extensionOf "png" = Some "png"
  /\ validateFile Examples.quiet (Examples.png_policy None None)
       Examples.dotless_png = Return tt.
Proof.
  destruct (dotless_name_is_its_own_extension Examples.quiet
              (Examples.png_policy None None) Examples.dotless_png
              Examples.png_type) as (He & _ & Hok).
  - reflexivity.
  - left. reflexivity.
  - vm_compute. discriminate.
  - left. reflexivity.
  - split; [exact He|]. apply Hok. left. reflexivity.
Defined.

(** ** Orchestrator *)

Lemma uploadFile_validation_throws W cfg file e :
  validateFile W cfg file = Throw e ->
  run (uploadFile W cfg file) = (Throw e, []).
Proof.
  intros H. unfold run, uploadFile, bind, lift. rewrite H. reflexivity.
Qed.

Lemma validateFile_with_defaultMaxSize W cfg file d :
  validateFile W (with_defaultMaxSize d cfg) file = validateFile W cfg file.
Proof. reflexivity. Qed.

Lemma get_not_inherited o key :
  own o !! key = None -> Obj.inherits o key = false -> Obj.get o key = None.
Proof.
  unfold Obj.inherits, Obj.get. simpl. rewrite lookup_empty. intros ->.
  destruct (String.eqb key "__proto__"); [discriminate|].
  destruct (proto o).
  - destruct (String.eqb key "maxSize"); [discriminate|].
    destruct (String.eqb key "allowedMimeTypes"); [discriminate|].
    destruct (String.eqb key "allowedExtensions"); [discriminate|].
    destruct (Obj.inherited key); [discriminate|reflexivity].
  - destruct (Obj.inherited key); [discriminate|reflexivity].
Qed.

(** C6 (the code departs from the claim). For a file whose MIME type
    and extension are both missing from the keys of [fileTypes]:
    when neither is the name of something the object inherits,
    [uploadFile] throws [UnsupportedFileType] before any collaborator
    is called, whatever [defaultMaxSize] and the file's size are, and
    the validator's answer never depends on [defaultMaxSize]; but when
    a probe lands on an inherited member (as for the extension
    [constructor]) the code does not throw [UnsupportedFileType]: it
    fails with the runtime's TypeError. *)
Theorem unknown_type_is_rejected_whatever_defaultMaxSize W cfg file :
  own (fileTypes cfg) !! mimetype file = None ->
  (forall e, extensionOf (originalname file) = Some e ->
             own (fileTypes cfg) !! e = None) ->
  (Obj.inherits (fileTypes cfg) (mimetype file) = false ->
   (forall e, extensionOf (originalname file) = Some e ->
              Obj.inherits (fileTypes cfg) e = false) ->
   forall d n,
     run (uploadFile W (with_defaultMaxSize d cfg) (with_size n file))
     = (Throw (mkError UnsupportedFileType
                 ("Unsupported file type: " ++ mimetype file)), []))
  /\ (forall d f,
        validateFile W (with_defaultMaxSize d cfg) f = validateFile W cfg f)
  /\ (forall v, lands_on_inherited cfg file v ->
      forall d n,
        run (uploadFile W (with_defaultMaxSize d cfg) (with_size n file))
        = (Throw includes_of_undefined, [])).
Proof.
  intros Hm He. split; [|split; [reflexivity|]].
  - intros Im Ie d n. apply uploadFile_validation_throws.
    destruct (extensionOf_defined (originalname file)) as [e Hext].
    apply (validateFile_unresolved W (with_defaultMaxSize d cfg)
             (with_size n file)); unfold misses; simpl.
    + rewrite (get_not_inherited _ _ Hm Im). reflexivity.
    + rewrite Hext. simpl.
      rewrite (get_not_inherited _ _ (He e Hext) (Ie e Hext)). reflexivity.
  - intros v Hv d n. apply uploadFile_validation_throws.
    apply (validateFile_inherited W (with_defaultMaxSize d cfg)
             (with_size n file) v). exact Hv.
Qed.

Lemma unknown_type_is_rejected_whatever_defaultMaxSize_witness :
  run (uploadFile Examples.quiet
         (with_defaultMaxSize (100 * 1024 * 1024)
            (Examples.png_policy None None))
         (with_size 1 Examples.notes_txt))
  = (Throw (mkError UnsupportedFileType "Unsupported file type: text/plain"),
     [])
  /\ run (uploadFile Examples.quiet
            (with_defaultMaxSize (100 * 1024 * 1024)
               (Examples.png_policy None None))
            (with_size 1 Cases.x_constructor))
     = (Throw (mkError TypeError
                 "Cannot read properties of undefined (reading 'includes')"),
        []).
Proof.
  split.
  - apply (unknown_type_is_rejected_whatever_defaultMaxSize Examples.quiet
             (Examples.png_policy None None) Examples.notes_txt).
    + reflexivity.
    + intros e He. vm_compute in He. injection He as <-. reflexivity.
    + reflexivity.
    + intros e He. vm_compute in He. injection He as <-. reflexivity.
  - apply (unknown_type_is_rejected_whatever_defaultMaxSize Examples.quiet
             (Examples.png_policy None None) Cases.x_constructor)
      with (v := Obj.Builtin).
    + reflexivity.
    + intros e He. vm_compute in He. injection He as <-. reflexivity.
    + split; [right; split; reflexivity|].
      split; [reflexivity|discriminate].
Defined.

(** *** What a stage adds to the log *)

Section Emits.

Context {A B : Type} (P : Event -> Prop).

Lemma emits_ret (a : A) : emits P (ret a).
Proof. intros log. exists []. split; [simpl; now rewrite app_nil_r|constructor]. Qed.

Lemma emits_throw e : emits P (@throw A e).
Proof. intros log. exists []. split; [simpl; now rewrite app_nil_r|constructor]. Qed.

Lemma emits_lift (o : outcome A) : emits P (lift o).
Proof. intros log. exists []. split; [simpl; now rewrite app_nil_r|constructor]. Qed.

Lemma emits_emit ev : P ev -> emits P (emit ev).
Proof. intros H log. exists [ev]. split; [reflexivity|now constructor]. Qed.

Lemma emits_bind (m : M A) (k : A -> M B) :
  emits P m -> (forall a, emits P (k a)) -> emits P (bind m k).
Proof.
  intros Hm Hk log. unfold bind.
  destruct (Hm log) as (evs & E & HP).
  destruct (m log) as [[a|e] log1]; simpl in E; subst log1.
  - destruct (Hk a (log ++ evs)%list) as (evs' & E' & HP').
    exists (evs ++ evs')%list. rewrite E', app_assoc.
    split; [reflexivity|]. apply Forall_app; auto.
  - exists evs. auto.
Qed.

Lemma emits_try_catch (m : M A) (handler : Error -> M A) :
  emits P m -> (forall e, emits P (handler e)) -> emits P (try_catch m handler).
Proof.
  intros Hm Hh log. unfold try_catch.
  destruct (Hm log) as (evs & E & HP).
  destruct (m log) as [[a|e] log1]; simpl in E; subst log1.
  - exists evs. auto.
  - destruct (Hh e (log ++ evs)%list) as (evs' & E' & HP').
    exists (evs ++ evs')%list. rewrite E', app_assoc.
    split; [reflexivity|]. apply Forall_app; auto.
Qed.

End Emits.

Lemma emits_await_unit P k r : emits P (await_unit k r).
Proof. destruct r; simpl; [apply emits_throw|apply emits_ret]. Qed.

Lemma emits_weaken {A} (P Q : Event -> Prop) (m : M A) :
  (forall ev, P ev -> Q ev) -> emits P m -> emits Q m.
Proof.
  intros H Hm log. destruct (Hm log) as (evs & E & HP).
  exists evs. split; [exact E|]. eapply Forall_impl; eauto.
Qed.

(** Goals [emits P m] for a stage written with the monad's operations. *)
Ltac emits_step :=
  match goal with
  | |- emits _ (bind _ _) => apply emits_bind; [|intros ?]
  | |- emits _ (try_catch _ _) => apply emits_try_catch; [|intros ?]
  | |- emits _ (ret _) => apply emits_ret
  | |- emits _ (throw _) => apply emits_throw
  | |- emits _ (lift _) => apply emits_lift
  | |- emits _ (await_unit _ _) => apply emits_await_unit
  | |- emits _ (emit _) => apply emits_emit
  | |- emits _ (match ?x with _ => _ end) => destruct x
  | |- emits _ (if ?x then _ else _) => destruct x
  end.

Lemma scanForVirus_emits W cfg file :
  emits (scan_event file) (scanForVirus W cfg file).
Proof.
  unfold scanForVirus, scan_event. repeat emits_step; eauto.
Qed.

Lemma compressImage_emits W cfg file :
  emits (codec_event cfg file) (compressImage W cfg file).
Proof.
  unfold compressImage, codec_event. repeat emits_step; eauto.
Qed.

Lemma storeFile_emits W cfg file name :
  emits (store_event file) (storeFile W cfg file name).
Proof.
  unfold storeFile, storeFileLocally, storeFileToS3, storeFileToAzure,
    storeFileToGCP, store_event.
  repeat emits_step; split; reflexivity.
Qed.

Lemma scan_event_not_codec file ev :
  scan_event file ev ->
  is_codec_event ev = false /\ is_storage_event ev = false
  /\ forall c, payload ev = Some c -> c = buffer file.
Proof.
  intros [(h & p & t & ->) | ->]; simpl; repeat split;
    try discriminate; congruence.
Qed.

Lemma store_event_not_codec file ev :
  store_event file ev ->
  is_codec_event ev = false
  /\ forall c, payload ev = Some c -> c = buffer file.
Proof.
  intros [Hs Hp]. split; [destruct ev; simpl in *; congruence|].
  intros c Hc. congruence.
Qed.

Lemma set_buffer_same file : set_buffer file (buffer file) = file.
Proof. destruct file. reflexivity. Qed.

(** ** Transformer *)

Lemma compressImage_disabled W cfg file :
  compressionEnabled cfg = false ->
  compressImage W cfg file = ret (buffer file).
Proof. unfold compressImage. intros ->. reflexivity. Qed.

Lemma bind_ret_r {A} (m : M A) log : bind m (fun a => ret a) log = m log.
Proof. unfold bind, ret. destruct (m log) as [[a|e] l]; reflexivity. Qed.

Lemma bind_Return {A B} (m : M A) (k : A -> M B) log a log' :
  m log = (Return a, log') -> bind m k log = k a log'.
Proof. unfold bind. intros ->. reflexivity. Qed.

Lemma bind_Throw {A B} (m : M A) (k : A -> M B) log e log' :
  m log = (Throw e, log') -> bind m k log = (Throw e, log').
Proof. unfold bind. intros ->. reflexivity. Qed.

Lemma bind_lift_Return {A B} (a : A) (k : A -> M B) log :
  bind (lift (Return a)) k log = k a log.
Proof. reflexivity. Qed.

Lemma bind_lift_Throw {A B} e (k : A -> M B) log :
  bind (lift (Throw e)) k log = (Throw e, log).
Proof. reflexivity. Qed.

Lemma upload_without_compression_emits W cfg file :
  emits (fun ev => scan_event file ev \/ store_event file ev)
    (upload_without_compression W cfg file).
Proof.
  unfold upload_without_compression.
  apply emits_bind; [apply emits_lift|intros _].
  apply emits_bind; [|intros _].
  - destruct (virusEnabled cfg); [|apply emits_ret].
    eapply emits_weaken; [|apply scanForVirus_emits]. auto.
  - eapply emits_weaken; [|apply storeFile_emits]. auto.
Qed.

(** C7. When the file's MIME type does not start with [image/], or the
    policy's compression is absent or disabled, [uploadFile] is the
    pipeline without the compression stage: the codec is never called,
    and every call to the scanner or to a storage backend carries the
    input buffer itself. *)
Theorem compression_stage_is_a_no_op W cfg file :
  JS.startsWith "image/" (mimetype file) = false
  \/ compressionEnabled cfg = false ->
  (forall log,
      uploadFile W cfg file log = upload_without_compression W cfg file log)
  /\ Forall (fun ev => is_codec_event ev = false
                       /\ forall c, payload ev = Some c -> c = buffer file)
       (snd (run (uploadFile W cfg file))).
Proof.
  intros Hoff.
  assert (Eq : forall log,
             uploadFile W cfg file log
             = upload_without_compression W cfg file log).
  { intros log. unfold uploadFile, upload_without_compression.
    destruct (validateFile W cfg file) as [[]|e];
      [rewrite !bind_lift_Return|rewrite !bind_lift_Throw; reflexivity].
    assert (Hstage :
      (if JS.startsWith "image/" (mimetype file)
       then let* b := compressImage W cfg file in ret (set_buffer file b)
       else ret file) log = (Return file, log)).
    { destruct (JS.startsWith "image/" (mimetype file)) eqn:Himg;
        [|reflexivity].
      destruct Hoff as [Hoff|Hoff]; [discriminate|].
      rewrite (compressImage_disabled _ _ _ Hoff).
      unfold bind, ret. rewrite set_buffer_same. reflexivity. }
    rewrite (bind_Return _ _ _ _ _ Hstage).
    destruct ((if virusEnabled cfg then scanForVirus W cfg file else ret tt)
                log) as [[[]|e] log1] eqn:Hscan.
    - rewrite !(bind_Return _ _ _ _ _ Hscan). apply bind_ret_r.
    - rewrite !(bind_Throw _ _ _ _ _ Hscan). reflexivity. }
  split; [exact Eq|].
  unfold run. rewrite Eq.
  destruct (upload_without_compression_emits W cfg file [])
    as (evs & -> & HP).
  simpl. eapply Forall_impl; [exact HP|].
  intros ev [H|H].
  - apply scan_event_not_codec in H. tauto.
  - apply store_event_not_codec in H. tauto.
Qed.

Lemma compression_stage_is_a_no_op_witness :
  run (uploadFile Examples.quiet (Examples.png_policy None (Some Examples.scanning))
         Examples.a_png)
  = run (upload_without_compression Examples.quiet
           (Examples.png_policy None (Some Examples.scanning)) Examples.a_png)
  /\ Forall (fun ev => is_codec_event ev = false
                       /\ forall c, payload ev = Some c
                                    -> c = buffer Examples.a_png)
       [ClamInit "localhost" 3310 60000;
        ClamScanStream (buffer Examples.a_png);
        S3Send
          {| client_region := Some "eu-west-1"; client_endpoint := None;
             client_accessKeyId := Some "AKIA";
             client_secretAccessKey := Some "secret" |}
          {| Bucket := Some "media"; Key := "a.png";
             Body := buffer Examples.a_png; ContentType := "image/png" |}].
Proof.
  destruct (compression_stage_is_a_no_op Examples.quiet
              (Examples.png_policy None (Some Examples.scanning))
              Examples.a_png) as [Heq Hall].
  - right. reflexivity.
  - split; [apply Heq|exact Hall].
Defined.

Lemma throws_ret {A} K (a : A) : throws K (ret a).
Proof. intros log e log' H. discriminate. Qed.

Lemma throws_throw {A} (K : Error -> Prop) e : K e -> throws K (@throw A e).
Proof. intros H log e' log' E. injection E as <- _. exact H. Qed.

Lemma throws_emit K ev : throws K (emit ev).
Proof. intros log e log' H. discriminate. Qed.

Lemma throws_await_unit (K : Error -> Prop) k r :
  (forall msg, K (mkError k msg)) -> throws K (await_unit k r).
Proof.
  intros H. destruct r; simpl; [apply throws_throw, H|apply throws_ret].
Qed.

Lemma throws_bind {A B} K (m : M A) (k : A -> M B) :
  throws K m -> (forall a, throws K (k a)) -> throws K (bind m k).
Proof.
  intros Hm Hk log e log'. unfold bind.
  destruct (m log) as [[a|e0] log1] eqn:E.
  - apply Hk.
  - intros H. injection H as <- _. eapply Hm, E.
Qed.

Ltac throws_step :=
  match goal with
  | |- throws _ (bind _ _) => apply throws_bind; [|intros ?]
  | |- throws _ (ret _) => apply throws_ret
  | |- throws _ (throw _) => apply throws_throw
  | |- throws _ (await_unit _ _) => apply throws_await_unit; intros ?
  | |- throws _ (emit _) => apply throws_emit
  | |- throws _ (match ?x with _ => _ end) => destruct x
  | |- throws _ (if ?x then _ else _) => destruct x
  end.

Lemma compressImage_throws W cfg file :
  throws codec_error (compressImage W cfg file).
Proof.
  unfold compressImage, codec_error. repeat throws_step; simpl; auto.
Qed.

(** ** Inspector *)

(** With scanning configured and an engine that reports an infection,
    the error thrown in the [try] block is caught by its own [catch]
    and rethrown as a scan failure. *)
Lemma scanForVirus_infected W cfg file v s viruses log :
  virus cfg = Some v ->
  virus_enabled v = true ->
  virus_config v = Some s ->
  (forall c, clam_scanStream W (host (clamav s)) (port (clamav s)) c
             = inr (true, viruses)) ->
  scanForVirus W cfg file log =
    match clam_init W (host (clamav s)) (port (clamav s)) with
    | Some msg =>
        (Throw (mkError CollaboratorError msg),
         (log ++ [ClamInit (host (clamav s)) (port (clamav s)) 60000])%list)
    | None =>
        (Throw (mkError ScanFailed
                  ("Virus scan failed: File is infected. Viruses found: "
                   ++ JS.join ", " viruses)),
         (log ++ [ClamInit (host (clamav s)) (port (clamav s)) 60000;
                  ClamScanStream (buffer file)])%list)
    end.
Proof.
  intros Hv Hen Hs Hscan.
  unfold scanForVirus, virusEnabled. rewrite Hv, Hen, Hs. simpl negb.
  cbv iota. unfold bind, emit, await_unit, try_catch, throw, ret.
  destruct (clam_init W (host (clamav s)) (port (clamav s))); simpl;
    [reflexivity|].
  rewrite Hscan. simpl. rewrite <- app_assoc. reflexivity.
Qed.

(** C1 (the code departs from the claim). With scanning enabled and an
    engine that reports [isInfected = true], [uploadFile] always throws
    and never reaches a storage backend; but the error it throws is
    never of the kind [InfectedFile]: once the scan has run, it is the
    [ScanFailed] error of the [catch] block, its message wrapping the
    infection message and the signatures. *)
Theorem infected_upload_is_rethrown_as_ScanFailed W cfg file v s viruses :
  virus cfg = Some v ->
  virus_enabled v = true ->
  virus_config v = Some s ->
  (forall c, clam_scanStream W (host (clamav s)) (port (clamav s)) c
             = inr (true, viruses)) ->
  (exists e, fst (run (uploadFile W cfg file)) = Throw e
             /\ kind e <> InfectedFile)
  /\ Forall (fun ev => is_storage_event ev = false)
       (snd (run (uploadFile W cfg file)))
  /\ ((exists c, In (ClamScanStream c) (snd (run (uploadFile W cfg file)))) ->
      fst (run (uploadFile W cfg file))
      = Throw (mkError ScanFailed
                 ("Virus scan failed: File is infected. Viruses found: "
                  ++ JS.join ", " viruses))).
Proof.
  intros Hv Hen Hs Hscan. unfold run, uploadFile.
  destruct (validateFile W cfg file) as [[]|e0] eqn:Hval.
  2:{ rewrite bind_lift_Throw. simpl. repeat split.
      - exists e0. split; [reflexivity|].
        apply validateFile_throws in Hval. intros E. rewrite E in Hval.
        repeat destruct Hval as [Hval|Hval]; discriminate.
      - constructor.
      - intros [c []]. }
  rewrite bind_lift_Return.
  set (stage := if JS.startsWith "image/" (mimetype file)
                then let* b := compressImage W cfg file in
                     ret (set_buffer file b)
                else ret file).
  assert (Hemits : emits (codec_event cfg file) stage).
  { subst stage. destruct (JS.startsWith "image/" (mimetype file));
      [|apply emits_ret].
    apply emits_bind; [apply compressImage_emits|intros b; apply emits_ret]. }
  assert (Hthrows : throws codec_error stage).
  { subst stage. destruct (JS.startsWith "image/" (mimetype file));
      [|apply throws_ret].
    apply throws_bind; [apply compressImage_throws|intros b; apply throws_ret]. }
  assert (Hen' : virusEnabled cfg = true)
    by (unfold virusEnabled; rewrite Hv; exact Hen).
  destruct (Hemits []) as (evs & Hlog & Hevs). simpl in Hlog.
  assert (Hcodec : forall ev, In ev evs ->
            is_storage_event ev = false /\ forall c, ev <> ClamScanStream c).
  { intros ev Hin. rewrite Forall_forall in Hevs.
    apply list_elem_of_In, Hevs in Hin. unfold codec_event in Hin.
    subst ev. split; [reflexivity|discriminate]. }
  destruct (stage []) as [[f'|e] log1] eqn:Est; simpl in Hlog; subst log1.
  - rewrite (bind_Return _ _ _ _ _ Est), Hen'.
    pose proof (scanForVirus_infected W cfg f' v s viruses evs Hv Hen Hs Hscan)
      as Escan.
    destruct (clam_init W (host (clamav s)) (port (clamav s))) as [msg|];
      rewrite (bind_Throw _ _ _ _ _ Escan); simpl; repeat split.
    + eexists. split; [reflexivity|discriminate].
    + apply Forall_forall. intros ev Hin%list_elem_of_In.
      apply in_app_or in Hin as [Hin|[<-|[]]]; [apply Hcodec, Hin|reflexivity].
    + intros [c Hin]. apply in_app_or in Hin as [Hin|[Hin|[]]];
        [apply Hcodec in Hin as [_ Hne]; destruct (Hne c eq_refl)
        |discriminate].
    + eexists. split; [reflexivity|discriminate].
    + apply Forall_forall. intros ev Hin%list_elem_of_In.
      apply in_app_or in Hin as [Hin|[<-|[<-|[]]]];
        [apply Hcodec, Hin|reflexivity|reflexivity].
  - rewrite (bind_Throw _ _ _ _ _ Est). simpl. repeat split.
    + exists e. split; [reflexivity|].
      destruct (Hthrows _ _ _ Est) as [E|E]; rewrite E; discriminate.
    + apply Forall_forall. intros ev Hin%list_elem_of_In. apply Hcodec, Hin.
    + intros [c Hin]. apply Hcodec in Hin as [_ Hne].
      destruct (Hne c eq_refl).
Qed.

Lemma infected_upload_is_rethrown_as_ScanFailed_witness :
  run (uploadFile Examples.infected
         (Examples.png_policy None (Some Examples.scanning)) Examples.a_png)
  = (Throw (mkError ScanFailed
              "Virus scan failed: File is infected. Viruses found: Eicar-Test-Signature"),
     [ClamInit "localhost" 3310 60000;
      ClamScanStream (buffer Examples.a_png)])
  /\ Forall (fun ev => is_storage_event ev = false)
       (snd (run (uploadFile Examples.infected
                    (Examples.png_policy None (Some Examples.scanning))
                    Examples.a_png))).
Proof.
  destruct (infected_upload_is_rethrown_as_ScanFailed Examples.infected
              (Examples.png_policy None (Some Examples.scanning))
              Examples.a_png Examples.scanning
              {| clamav := {| host := "localhost"; port := 3310 |} |}
              ["Eicar-Test-Signature"]) as (_ & Hstore & _);
    try reflexivity.
  split; [reflexivity|exact Hstore].
Defined.

(** ** Storage backends *)

Lemma storeFile_s3 W cfg file name s3 log :
  type (storage cfg) = "s3" ->
  storage_config (storage cfg) = S3Cfg s3 ->
  let client :=
    {| client_region := Some (region s3);
       client_endpoint := endpoint s3;
       client_accessKeyId := Some (accessKeyId s3);
       client_secretAccessKey := Some (secretAccessKey s3) |} in
  let cmd :=
    {| Bucket := Some (bucket s3); Key := name; Body := buffer file;
       ContentType := mimetype file |} in
  storeFile W cfg file name log =
    match s3_send W client cmd with
    | None =>
        (Return ("https://" ++ bucket s3 ++ ".s3." ++ region s3
                 ++ ".amazonaws.com/" ++ name),
         (log ++ [S3Send client cmd])%list)
    | Some msg =>
        (Throw (mkError StorageError msg), (log ++ [S3Send client cmd])%list)
    end.
Proof.
  intros Ht Hc. unfold storeFile, storeFileToS3. rewrite Ht, Hc. simpl.
  unfold bind, emit, await_unit.
  destruct (s3_send W _ _); reflexivity.
Qed.

(** C8. A successful upload under an S3 policy with bucket [B] and
    region [R] puts the bytes under the key that is the file's original
    name and returns [https://B.s3.R.amazonaws.com/] followed by that
    name; the configured endpoint, custom or not, only reaches the
    client and never the returned string. *)
Theorem s3_locator_is_virtual_hosted_url W cfg file s3 url log :
  type (storage cfg) = "s3" ->
  storage_config (storage cfg) = S3Cfg s3 ->
  run (uploadFile W cfg file) = (Return url, log) ->
  url = "https://" ++ bucket s3 ++ ".s3." ++ region s3 ++ ".amazonaws.com/"
        ++ originalname file
  /\ exists log0 body,
       log = (log0 ++
              [S3Send
                 {| client_region := Some (region s3);
                    client_endpoint := endpoint s3;
                    client_accessKeyId := Some (accessKeyId s3);
                    client_secretAccessKey := Some (secretAccessKey s3) |}
                 {| Bucket := Some (bucket s3); Key := originalname file;
                    Body := body; ContentType := mimetype file |}])%list.
Proof.
  intros Ht Hc. unfold run, uploadFile.
  destruct (validateFile W cfg file) as [[]|e0];
    [rewrite bind_lift_Return|rewrite bind_lift_Throw; discriminate].
  set (stage := if JS.startsWith "image/" (mimetype file)
                then let* b := compressImage W cfg file in
                     ret (set_buffer file b)
                else ret file).
  assert (Hsame : forall f' l, stage [] = (Return f', l) ->
            mimetype f' = mimetype file
            /\ originalname f' = originalname file).
  { subst stage. intros f' l.
    destruct (JS.startsWith "image/" (mimetype file)).
    - unfold bind, ret.
      destruct (compressImage W cfg file []) as [[b|e] l1]; [|discriminate].
      intros H. injection H as <- _. auto.
    - unfold ret. intros H. injection H as <- _. auto. }
  destruct (stage []) as [[f'|e] log1] eqn:Est;
    [rewrite (bind_Return _ _ _ _ _ Est)
    |rewrite (bind_Throw _ _ _ _ _ Est); discriminate].
  destruct (Hsame f' log1 eq_refl) as [Hmime Hname].
  destruct ((if virusEnabled cfg then scanForVirus W cfg f' else ret tt) log1)
    as [[[]|e] log2] eqn:Escan;
    [rewrite (bind_Return _ _ _ _ _ Escan)
    |rewrite (bind_Throw _ _ _ _ _ Escan); discriminate].
  rewrite bind_ret_r, (storeFile_s3 W cfg f' _ s3 log2 Ht Hc).
  rewrite Hname, Hmime.
  destruct (s3_send W _ _); [discriminate|].
  intros H. injection H as <- <-. split; [reflexivity|].
  exists log2, (buffer f'). reflexivity.
Qed.

Lemma s3_locator_is_virtual_hosted_url_witness :
  run (uploadFile Examples.quiet
         (Examples.png_policy (Some "http://localhost:9000") None)
         Examples.a_png)
  = (Return "https://media.s3.eu-west-1.amazonaws.com/a.png",
     [S3Send
        {| client_region := Some "eu-west-1";
           client_endpoint := Some "http://localhost:9000";
           client_accessKeyId := Some "AKIA";
           client_secretAccessKey := Some "secret" |}
        {| Bucket := Some "media"; Key := "a.png";
           Body := buffer Examples.a_png; ContentType := "image/png" |}])
  /\ "https://media.s3.eu-west-1.amazonaws.com/a.png"
     = "https://" ++ "media" ++ ".s3." ++ "eu-west-1" ++ ".amazonaws.com/"
       ++ "a.png".
Proof.
  split; [reflexivity|].
  apply (s3_locator_is_virtual_hosted_url Examples.quiet
           (Examples.png_policy (Some "http://localhost:9000") None)
           Examples.a_png
           {| accessKeyId := "AKIA"; secretAccessKey := "secret";
              region := "eu-west-1"; bucket := "media";
              endpoint := Some "http://localhost:9000" |}
           "https://media.s3.eu-west-1.amazonaws.com/a.png"
           (snd (run (uploadFile Examples.quiet
                        (Examples.png_policy (Some "http://localhost:9000")
                           None) Examples.a_png))));
    reflexivity.
Defined.

(** ** Quality 0 *)

Lemma uploadFile_emits W cfg file :
  emits (fun ev => codec_event cfg file ev \/ is_codec_event ev = false)
    (uploadFile W cfg file).
Proof.
  unfold uploadFile.
  apply emits_bind; [apply emits_lift|intros _].
  apply emits_bind; [|intros f'].
  - destruct (JS.startsWith "image/" (mimetype file)); [|apply emits_ret].
    apply emits_bind; [|intros b; apply emits_ret].
    eapply emits_weaken; [|apply compressImage_emits]. auto.
  - apply emits_bind; [|intros _].
    + destruct (virusEnabled cfg); [|apply emits_ret].
      eapply emits_weaken; [|apply scanForVirus_emits].
      intros ev H. right. eapply scan_event_not_codec, H.
    + apply emits_bind; [|intros p; apply emits_ret].
      eapply emits_weaken; [|apply storeFile_emits].
      intros ev H. right. eapply store_event_not_codec, H.
Qed.

(** C10. Under a policy whose compression was set by
    [enableCompression(0, maxWidth, maxHeight)], [uploadFile] is the
    same computation as under the policy set with the quality left
    out: the pipeline handed to the codec is the resize alone (when a
    bound is set) and never holds a JPEG re-encode. *)
Theorem quality_zero_is_quality_omitted W cfg file w hgt :
  compression cfg = Some (compression_of (Some 0) w hgt) ->
  uploadFile W cfg file
  = uploadFile W (with_compression (Some (compression_of None w hgt)) cfg)
      file
  /\ sharpPipeline (compressionSettings cfg)
     = (if JS.truthy w || JS.truthy hgt then [Resize w hgt] else [])
  /\ Forall (fun ev => forall input ops,
                 ev = SharpToBuffer input ops ->
                 ops = if JS.truthy w || JS.truthy hgt
                       then [Resize w hgt] else [])
       (snd (run (uploadFile W cfg file))).
Proof.
  intros Hc.
  assert (Hpipe : sharpPipeline (compressionSettings cfg)
                  = (if JS.truthy w || JS.truthy hgt
                     then [Resize w hgt] else [])).
  { unfold compressionSettings, sharpPipeline. rewrite Hc. simpl.
    destruct (JS.truthy w || JS.truthy hgt); reflexivity. }
  split; [|split; [exact Hpipe|]].
  - destruct cfg as [st ft d v c ch]. simpl in Hc. subst c. reflexivity.
  - destruct (uploadFile_emits W cfg file []) as (evs & E & HP).
    unfold run. rewrite E. simpl. eapply Forall_impl; [exact HP|].
    intros ev [H|H] input ops ->.
    + unfold codec_event in H. injection H as _ ->. exact Hpipe.
    + discriminate.
Qed.

Lemma quality_zero_is_quality_omitted_witness :
  run (uploadFile Examples.quiet (Examples.resizing_policy (Some 0))
         Examples.a_png)
  = run (uploadFile Examples.quiet (Examples.resizing_policy None)
           Examples.a_png)
  /\ snd (run (uploadFile Examples.quiet (Examples.resizing_policy (Some 0))
                 Examples.a_png))
     = [SharpToBuffer (buffer Examples.a_png) [Resize (Some 800) (Some 600)];
        S3Send
          {| client_region := Some "eu-west-1"; client_endpoint := None;
             client_accessKeyId := Some "AKIA";
             client_secretAccessKey := Some "secret" |}
          {| Bucket := Some "media"; Key := "a.png";
             Body := buffer Examples.a_png; ContentType := "image/png" |}].
Proof.
  destruct (quality_zero_is_quality_omitted Examples.quiet
              (Examples.resizing_policy (Some 0)) Examples.a_png
              (Some 800) (Some 600)) as (E & _ & _).
  - reflexivity.
  - split; [rewrite E; reflexivity|reflexivity].
Defined.

(** ** Configuration builder *)

Import Builder.

Lemma deref_assign_same b f (h : gmap nat PartialUploadConfig) :
  deref (assign b f h) (config b) = f (deref h (config b)).
Proof. unfold deref at 1, assign. rewrite lookup_insert_eq. reflexivity. Qed.

Lemma deref_assign_other b f (h : gmap nat PartialUploadConfig) l :
  l <> config b -> deref (assign b f h) l = deref h l.
Proof.
  intros Hne. unfold deref, assign. rewrite lookup_insert_ne; [reflexivity|].
  congruence.
Qed.

Lemma call_effect b k (h : gmap nat PartialUploadConfig) :
  call b k h = assign b (effect k) h.
Proof. destruct k; reflexivity. Qed.

Lemma deref_calls_same b ks : forall h : gmap nat PartialUploadConfig,
  deref (calls b ks h) (config b)
  = fold_left (fun c k => effect k c) ks (deref h (config b)).
Proof.
  unfold calls. induction ks as [|k ks IH]; intros h; simpl; [reflexivity|].
  rewrite IH, call_effect, deref_assign_same. reflexivity.
Qed.

Lemma deref_calls_other b ks l : forall h : gmap nat PartialUploadConfig,
  l <> config b -> deref (calls b ks h) l = deref h l.
Proof.
  unfold calls. induction ks as [|k ks IH]; intros h Hne; simpl; [reflexivity|].
  rewrite IH, call_effect, deref_assign_other; auto.
Qed.

Lemma deref_new_builder (h : gmap nat PartialUploadConfig) :
  deref (snd (new_builder h)) (config (fst (new_builder h))) = empty_config.
Proof. unfold new_builder, deref. simpl. rewrite lookup_insert_eq. reflexivity. Qed.

(** What a successful [build()] returns and leaves in the heap. *)
Lemma build_inr b (h : gmap nat PartialUploadConfig) r h' :
  build b h = (inr r, h') ->
  r = config b
  /\ p_storage (deref h (config b)) <> None
  /\ p_fileTypes (deref h (config b)) <> None
  /\ deref h' r =
       (if JS.truthy (p_defaultMaxSize (deref h (config b)))
        then deref h (config b)
        else set_defaultMaxSize five_MiB (deref h (config b))).
Proof.
  unfold build.
  destruct (p_storage (deref h (config b))) eqn:Hs; [|discriminate].
  destruct (p_fileTypes (deref h (config b))) eqn:Hf; [|discriminate].
  intros H. injection H as <- <-.
  repeat split; try discriminate.
  destruct (JS.truthy _); [reflexivity|apply deref_assign_same].
Qed.

Lemma forRoot_inr ks (h : gmap nat PartialUploadConfig) r h' :
  forRoot ks h = (inr r, h') ->
  let c := fold_left (fun c k => effect k c) ks empty_config in
  p_storage c <> None /\ p_fileTypes c <> None
  /\ deref h' r =
       (if JS.truthy (p_defaultMaxSize c) then c
        else set_defaultMaxSize five_MiB c).
Proof.
  unfold forRoot.
  pose proof (deref_new_builder h) as Hnew.
  destruct (new_builder h) as [b h1]. simpl in Hnew.
  intros H. apply build_inr in H as (-> & Hs & Hf & Hd).
  rewrite deref_calls_same, Hnew in Hs, Hf, Hd. auto.
Qed.

Lemma fold_effect_defaultMaxSize ks : forall c,
  p_defaultMaxSize (fold_left (fun c k => effect k c) ks c)
  = lastDefaultMaxSize ks (p_defaultMaxSize c).
Proof.
  induction ks as [|k ks IH]; intros c; simpl; [reflexivity|].
  rewrite IH. destruct k; reflexivity.
Qed.

Lemma lastDefaultMaxSize_never ks acc :
  Forall (fun k => is_setDefaultMaxSize k = false) ks ->
  lastDefaultMaxSize ks acc = acc.
Proof.
  intros H. revert acc. induction H as [|k ks Hk _ IH]; intros acc;
    [reflexivity|].
  destruct k; simpl in *; try apply IH. discriminate.
Qed.

Lemma built_as_UploadConfig ks (h : gmap nat PartialUploadConfig) r h' :
  forRoot ks h = (inr r, h') ->
  exists cfg, as_UploadConfig (deref h' r) = Some cfg.
Proof.
  intros H. apply forRoot_inr in H as (Hs & Hf & Hd). rewrite Hd.
  set (c := fold_left _ ks empty_config) in *.
  unfold as_UploadConfig.
  destruct (JS.truthy (p_defaultMaxSize c)) eqn:Ht; simpl.
  - destruct (p_storage c); [|contradiction].
    destruct (p_fileTypes c); [|contradiction].
    destruct (p_defaultMaxSize c); [eauto|discriminate].
  - destruct (p_storage c); [|contradiction].
    destruct (p_fileTypes c); [|contradiction]. eauto.
Qed.

Lemma as_UploadConfig_fields c cfg :
  as_UploadConfig c = Some cfg ->
  p_storage c = Some (storage cfg)
  /\ p_fileTypes c = Some (fileTypes cfg)
  /\ p_defaultMaxSize c = Some (defaultMaxSize cfg)
  /\ p_virus c = virus cfg
  /\ p_compression c = compression cfg.
Proof.
  unfold as_UploadConfig. destruct c as [[s|] [f|] [d|] v cm ch]; simpl;
    try discriminate.
  intros H. injection H as <-. simpl. auto.
Qed.

(** C5, as claimed, fails: [setDefaultMaxSize(0)] was called, and
    [build()] yields 5 MiB, not 0. *)
Lemma zero_defaultMaxSize_is_replaced_by_5_MiB :
  ~ (forall ks (h : gmap nat PartialUploadConfig) r h',
        forRoot ks h = (inr r, h') ->
        (p_defaultMaxSize (deref h' r) = Some five_MiB
         <-> Forall (fun k => is_setDefaultMaxSize k = false) ks)
        /\ (forall s, lastDefaultMaxSize ks None = Some s ->
                      p_defaultMaxSize (deref h' r) = Some s)).
Proof.
  intros H.
  pose (ks := (Examples.minimal_calls ++ [SetDefaultMaxSize 0])%list).
  destruct (forRoot ks ∅) as [[e|r] h'] eqn:E; [vm_compute in E; discriminate|].
  destruct (H ks ∅ r h' E) as [_ Hset].
  specialize (Hset 0 eq_refl).
  apply forRoot_inr in E as (_ & _ & Hd). rewrite Hd in Hset.
  vm_compute in Hset. discriminate.
Qed.

(** [setDefaultMaxSize(NaN)]: a number, and falsy as [0] is. *)
Example NaN_defaultMaxSize_is_replaced_by_5_MiB :
  p_defaultMaxSize
    (deref (snd (forRoot (Examples.minimal_calls
                          ++ [SetDefaultMaxSize JS.NaN]) ∅)) 0%nat)
  = Some (JS.Num five_MiB).
Proof. vm_compute. reflexivity. Qed.

(** C5, amended. [build()] yields [defaultMaxSize] = 5 MiB when
    [setDefaultMaxSize] was never called, and yields [s] when the last
    [setDefaultMaxSize] call gave a truthy [s] (a number that is
    neither 0 nor NaN). *)
Theorem build_defaultMaxSize ks (h : gmap nat PartialUploadConfig) r h' :
  forRoot ks h = (inr r, h') ->
  exists cfg,
    as_UploadConfig (deref h' r) = Some cfg
    /\ (Forall (fun k => is_setDefaultMaxSize k = false) ks ->
        defaultMaxSize cfg = five_MiB)
    /\ (forall s, lastDefaultMaxSize ks None = Some s ->
                  JS.truthy (Some s) = true ->
                  defaultMaxSize cfg = s).
Proof.
  intros H. destruct (built_as_UploadConfig _ _ _ _ H) as [cfg Hcfg].
  exists cfg. split; [exact Hcfg|].
  apply forRoot_inr in H as (_ & _ & Hd).
  apply as_UploadConfig_fields in Hcfg as (_ & _ & Hdm & _).
  rewrite Hd in Hdm.
  pose proof (fold_effect_defaultMaxSize ks empty_config) as Hlast.
  simpl in Hlast.
  set (c := fold_left _ ks empty_config) in *.
  split.
  - intros Hnever.
    rewrite (lastDefaultMaxSize_never _ _ Hnever) in Hlast.
    rewrite Hlast in Hdm. simpl in Hdm. congruence.
  - intros s Hs Ht. rewrite Hs in Hlast. rewrite Hlast, Ht in Hdm.
    congruence.
Qed.

Lemma build_defaultMaxSize_witness :
  exists cfg,
    as_UploadConfig
      (deref (snd (forRoot (Examples.minimal_calls
                            ++ [SetDefaultMaxSize 1024; EnableChunkedUploads None;
                                SetDefaultMaxSize 2048]) ∅))
         0%nat) = Some cfg
    /\ defaultMaxSize cfg = 2048.
Proof.
  destruct (build_defaultMaxSize
              (Examples.minimal_calls
               ++ [SetDefaultMaxSize 1024; EnableChunkedUploads None;
                   SetDefaultMaxSize 2048]) ∅ 0%nat
              (snd (forRoot (Examples.minimal_calls
                             ++ [SetDefaultMaxSize 1024;
                                 EnableChunkedUploads None;
                                 SetDefaultMaxSize 2048]) ∅)))
    as (cfg & Hcfg & _ & Hset).
  - vm_compute. reflexivity.
  - exists cfg. split; [exact Hcfg|]. apply Hset; reflexivity.
Defined.

Lemma enableCompression_stores q w hgt b (h : gmap nat PartialUploadConfig) :
  p_compression (deref (enableCompression q w hgt b h) (config b))
  = Some (compression_of q w hgt).
Proof. unfold enableCompression. rewrite deref_assign_same. reflexivity. Qed.

(** C4, as claimed, fails: [build()] returns the builder's own config
    object, and [setDefaultMaxSize(1)] called on the builder afterwards
    changes the object already returned. *)
Lemma setter_after_build_changes_the_returned_policy :
  ~ (forall ks ks' (h : gmap nat PartialUploadConfig) r h',
        build (fst (new_builder h))
          (calls (fst (new_builder h)) ks (snd (new_builder h)))
        = (inr r, h') ->
        deref (calls (fst (new_builder h)) ks' h') r = deref h' r).
Proof.
  intros H.
  pose (b := fst (new_builder ∅)).
  destruct (build b (calls b Examples.minimal_calls (snd (new_builder ∅))))
    as [[e|r] h'] eqn:E; [vm_compute in E; discriminate|].
  specialize (H Examples.minimal_calls [SetDefaultMaxSize 1] ∅ r h' E).
  apply build_inr in E as (-> & _ & _ & Hd).
  fold b in H. rewrite deref_calls_same, Hd in H.
  apply (f_equal p_defaultMaxSize) in H. vm_compute in H. discriminate.
Qed.

(** C4, amended. The Policy Model [build()] returns is the builder's
    own config object, not a copy: every setter call made on that
    builder after [build()] updates the returned object (so
    [setDefaultMaxSize(s)] makes its [defaultMaxSize] [s]), and calls
    made on any other builder leave it as it is. *)
Theorem build_returns_the_builders_own_object
    b (h : gmap nat PartialUploadConfig) r h' :
  build b h = (inr r, h') ->
  r = config b
  /\ (forall k, deref (call b k h') r = effect k (deref h' r))
  /\ (forall s, p_defaultMaxSize (deref (setDefaultMaxSize s b h') r) = Some s)
  /\ (forall b' ks, config b' <> config b ->
        deref (calls b' ks h') r = deref h' r).
Proof.
  intros H. apply build_inr in H as (-> & _). repeat split.
  - intros k. rewrite call_effect. apply deref_assign_same.
  - intros s. unfold setDefaultMaxSize. rewrite deref_assign_same.
    reflexivity.
  - intros b' ks Hne. apply deref_calls_other. congruence.
Qed.

Lemma build_returns_the_builders_own_object_witness :
  p_defaultMaxSize
    (deref (snd (forRoot Examples.minimal_calls ∅)) 0%nat)
  = Some five_MiB
  /\ p_defaultMaxSize
       (deref (setDefaultMaxSize 1 {| config := 0%nat |}
                 (snd (forRoot Examples.minimal_calls ∅))) 0%nat)
     = Some 1
  /\ deref (calls {| config := 1%nat |} [SetDefaultMaxSize 1]
              (snd (forRoot Examples.minimal_calls ∅))) 0%nat
     = deref (snd (forRoot Examples.minimal_calls ∅)) 0%nat.
Proof.
  destruct (build_returns_the_builders_own_object
              {| config := 0%nat |}
              (calls {| config := 0%nat |} Examples.minimal_calls
                 (snd (new_builder ∅)))
              0%nat (snd (forRoot Examples.minimal_calls ∅)))
    as (_ & _ & Hset & Hframe).
  - vm_compute. reflexivity.
  - split; [vm_compute; reflexivity|]. split; [apply Hset|].
    apply Hframe. simpl. discriminate.
Defined.

Lemma effect_scanner_configured k c :
  scanner_configured (p_virus c) -> scanner_configured (p_virus (effect k c)).
Proof.
  destruct k; simpl; auto.
  intros _ x Hx _. injection Hx as <-. simpl. eauto.
Qed.

Lemma fold_effect_scanner_configured ks : forall c,
  scanner_configured (p_virus c) ->
  scanner_configured (p_virus (fold_left (fun c k => effect k c) ks c)).
Proof.
  induction ks as [|k ks IH]; intros c Hc; simpl; [exact Hc|].
  apply IH, effect_scanner_configured, Hc.
Qed.

Lemma scanForVirus_never_misconfigured W cfg file :
  scanner_configured (virus cfg) ->
  throws (fun e => kind e <> ScannerMisconfigured) (scanForVirus W cfg file).
Proof.
  intros Hok. unfold scanForVirus, virusEnabled.
  destruct (virus cfg) as [v|] eqn:Hv; simpl; [|apply throws_ret].
  destruct (virus_enabled v) eqn:Hen; simpl; [|apply throws_ret].
  destruct (Hok v eq_refl Hen) as [s ->].
  apply throws_bind; [apply throws_emit|intros _].
  apply throws_bind; [apply throws_await_unit; intros msg; discriminate|].
  intros _ log e log'. unfold try_catch.
  destruct (bind _ _ log) as [[[]|e0] l]; [discriminate|].
  unfold throw. intros H. injection H as <- _. discriminate.
Qed.

Lemma storeFile_throws W cfg file name :
  throws (fun e => kind e = StorageError \/ kind e = UnsupportedStorageType)
    (storeFile W cfg file name).
Proof.
  unfold storeFile, storeFileLocally, storeFileToS3, storeFileToAzure,
    storeFileToGCP.
  repeat throws_step; simpl; auto.
Qed.

Lemma throws_weaken {A} (K K' : Error -> Prop) (m : M A) :
  (forall e, K e -> K' e) -> throws K m -> throws K' m.
Proof. intros H Hm log e log' E. eapply H, Hm, E. Qed.

Lemma uploadFile_never_misconfigured W cfg file :
  scanner_configured (virus cfg) ->
  throws (fun e => kind e <> ScannerMisconfigured) (uploadFile W cfg file).
Proof.
  intros Hok. unfold uploadFile.
  apply throws_bind; [|intros _].
  { intros log e log' H. unfold lift in H. injection H as Hv _.
    apply validateFile_throws in Hv. intros E. rewrite E in Hv.
    repeat destruct Hv as [Hv|Hv]; discriminate. }
  apply throws_bind; [|intros f'].
  { destruct (JS.startsWith "image/" (mimetype file)); [|apply throws_ret].
    apply throws_bind; [|intros b; apply throws_ret].
    eapply throws_weaken; [|apply compressImage_throws].
    intros e [E|E]; rewrite E; discriminate. }
  apply throws_bind; [|intros _].
  { destruct (virusEnabled cfg); [|apply throws_ret].
    apply scanForVirus_never_misconfigured, Hok. }
  apply throws_bind; [|intros p; apply throws_ret].
  eapply throws_weaken; [|apply storeFile_throws].
  intros e [E|E]; rewrite E; discriminate.
Qed.

(** C9. In every policy [build()] returns, enabled virus scanning comes
    with its ClamAV host and port, so neither [scanForVirus] nor
    [uploadFile] run under such a policy ever throws the "ClamAV
    configuration is missing." error. *)
Theorem built_policy_has_its_scanner_configured
    ks (h : gmap nat PartialUploadConfig) r h' cfg :
  forRoot ks h = (inr r, h') ->
  as_UploadConfig (deref h' r) = Some cfg ->
  (forall v, virus cfg = Some v -> virus_enabled v = true ->
             exists s, virus_config v = Some s)
  /\ (forall W file,
        throws (fun e => kind e <> ScannerMisconfigured)
          (scanForVirus W cfg file)
        /\ throws (fun e => kind e <> ScannerMisconfigured)
             (uploadFile W cfg file)).
Proof.
  intros H Hcfg.
  assert (Hok : scanner_configured (virus cfg)).
  { apply as_UploadConfig_fields in Hcfg as (_ & _ & _ & <- & _).
    apply forRoot_inr in H as (_ & _ & ->).
    assert (Hfold := fold_effect_scanner_configured ks empty_config).
    destruct (JS.truthy _); simpl; apply Hfold; intros x Hx; discriminate. }
  split; [exact Hok|].
  intros W file. split.
  - apply scanForVirus_never_misconfigured, Hok.
  - apply uploadFile_never_misconfigured, Hok.
Qed.

Lemma built_policy_has_its_scanner_configured_witness :
  as_UploadConfig (deref (snd (forRoot Examples.scanning_calls ∅)) 0%nat)
  = Some Examples.scanning_local_policy
  /\ (exists s, virus_config Examples.scanning = Some s)
  /\ throws (fun e => kind e <> ScannerMisconfigured)
       (uploadFile Examples.quiet Examples.scanning_local_policy
          Examples.a_png).
Proof.
  destruct (built_policy_has_its_scanner_configured
              Examples.scanning_calls ∅ 0%nat
              (snd (forRoot Examples.scanning_calls ∅))
              Examples.scanning_local_policy) as [Hv Ht].
  - vm_compute. reflexivity.
  - vm_compute. reflexivity.
  - split; [vm_compute; reflexivity|].
    split; [apply (Hv Examples.scanning); reflexivity|].
    apply Ht.
Defined.

(** * Further properties of the builder *)

Lemma fold_effect_storage ks : forall c,
  p_storage (fold_left (fun c k => effect k c) ks c)
  = lastStorage ks (p_storage c).
Proof.
  induction ks as [|k ks IH]; intros c; simpl; [reflexivity|].
  rewrite IH. destruct k; reflexivity.
Qed.

Lemma lastStorage_None ks : forall acc,
  lastStorage ks acc = None
  <-> acc = None /\ existsb is_storage_call ks = false.
Proof.
  induction ks as [|k ks IH]; intros acc; simpl; [tauto|].
  rewrite IH. unfold is_storage_call.
  destruct (storage_of k); simpl; [|tauto].
  split; [intros [? _]; discriminate|intros [_ ?]; discriminate].
Qed.

Lemma fold_effect_fileTypes_None ks : forall c,
  p_fileTypes (fold_left (fun c k => effect k c) ks c) = None
  <-> p_fileTypes c = None /\ existsb is_setFileType ks = false.
Proof.
  induction ks as [|k ks IH]; intros c; simpl; [tauto|].
  rewrite IH. destruct k; simpl; try tauto.
  split; [intros [? _]; discriminate|intros [_ ?]; discriminate].
Qed.

Lemma set_own_other o key c name :
  name <> key -> own (Obj.set o key c) !! name = own o !! name.
Proof.
  intros Hne. unfold Obj.set.
  destruct (own o !! key); simpl; [apply lookup_insert_ne; congruence|].
  destruct (String.eqb key "__proto__"); simpl; [reflexivity|].
  apply lookup_insert_ne. congruence.
Qed.

Lemma set_own_same o key c :
  key <> "__proto__" -> own (Obj.set o key c) !! key = Some c.
Proof.
  intros Hne. unfold Obj.set.
  destruct (own o !! key); simpl; [apply lookup_insert_eq|].
  destruct (String.eqb_spec key "__proto__"); [contradiction|].
  simpl. apply lookup_insert_eq.
Qed.

Lemma set_proto_key o c :
  own o !! "__proto__" = None ->
  own (Obj.set o "__proto__" c) = own o
  /\ proto (Obj.set o "__proto__" c) = Some c.
Proof. intros H. unfold Obj.set. rewrite H. simpl. auto. Qed.

Lemma set_proto_other o key c :
  key <> "__proto__" -> proto (Obj.set o key c) = proto o.
Proof.
  intros Hne. unfold Obj.set. destruct (own o !! key); [reflexivity|].
  destruct (String.eqb_spec key "__proto__"); [contradiction|reflexivity].
Qed.

(** The own entry under a key other than ["__proto__"]. *)
Lemma fold_effect_own name ks :
  name <> "__proto__" ->
  forall c,
    (p_fileTypes (fold_left (fun c k => effect k c) ks c)
       ≫= (fun o => own o !! name))
    = lastFileType name ks (p_fileTypes c ≫= (fun o => own o !! name)).
Proof.
  intros Hname. induction ks as [|k ks IH]; intros c; simpl; [reflexivity|].
  rewrite IH. destruct k as [?|? ? ? ? ?|? ?|? ? ?|nm fc|?|? ?|? ? ?|?];
    try reflexivity. simpl. f_equal.
  destruct (String.eqb_spec nm name) as [->|Hne].
  - apply set_own_same, Hname.
  - rewrite set_own_other by congruence.
    destruct (p_fileTypes c); [reflexivity|apply lookup_empty].
Qed.

Lemma effect_proto k c :
  (p_fileTypes c ≫= (fun o => own o !! "__proto__")) = None ->
  (p_fileTypes (effect k c) ≫= (fun o => own o !! "__proto__")) = None
  /\ (p_fileTypes (effect k c) ≫= proto)
     = lastFileType "__proto__" [k] (p_fileTypes c ≫= proto).
Proof.
  intros Hc. destruct k as [?|? ? ? ? ?|? ?|? ? ?|nm fc|?|? ?|? ? ?|?];
    simpl; auto.
  set (o := match p_fileTypes c with Some o => o | None => Obj.empty end).
  assert (Ho : own o !! "__proto__" = None).
  { subst o. destruct (p_fileTypes c); [exact Hc|apply lookup_empty]. }
  assert (Hp : proto o = p_fileTypes c ≫= proto)
    by (subst o; destruct (p_fileTypes c); reflexivity).
  destruct (String.eqb_spec nm "__proto__") as [->|Hne].
  - destruct (set_proto_key o fc Ho) as [-> ->]. auto.
  - rewrite set_own_other by congruence.
    rewrite set_proto_other by exact Hne. auto.
Qed.

(** ["__proto__"] never becomes an own key; the prototype is the entry
    of the last [setFileType("__proto__", ...)]. *)
Lemma fold_effect_proto ks : forall c,
  (p_fileTypes c ≫= (fun o => own o !! "__proto__")) = None ->
  (p_fileTypes (fold_left (fun c k => effect k c) ks c)
     ≫= (fun o => own o !! "__proto__")) = None
  /\ (p_fileTypes (fold_left (fun c k => effect k c) ks c) ≫= proto)
     = lastFileType "__proto__" ks (p_fileTypes c ≫= proto).
Proof.
  induction ks as [|k ks IH]; intros c Hc; [simpl; auto|].
  destruct (effect_proto k c Hc) as [A B].
  destruct (IH (effect k c) A) as [I1 I2].
  change (fold_left (fun c k => effect k c) (k :: ks) c)
    with (fold_left (fun c k => effect k c) ks (effect k c)).
  split; [exact I1|]. rewrite I2, B. destruct k; reflexivity.
Qed.

(** X1. [build()] fails for want of a storage exactly when the chain
    holds no [use...Storage] call, fails for want of file types exactly
    when it holds one but no [setFileType] call, and otherwise returns
    the new builder's config reference. *)
Theorem build_checks_storage_then_fileTypes
    ks (h : gmap nat PartialUploadConfig) :
  fst (forRoot ks h)
  = if negb (existsb is_storage_call ks) then inl StorageRequired
    else if negb (existsb is_setFileType ks) then inl FileTypesRequired
    else inr (fresh (dom h)).
Proof.
  unfold forRoot. pose proof (deref_new_builder h) as Hnew.
  destruct (new_builder h) as [b h1] eqn:Eb. simpl in Hnew.
  assert (Hb : config b = fresh (dom h))
    by (unfold new_builder in Eb; injection Eb as <- _; reflexivity).
  unfold build. rewrite deref_calls_same, Hnew.
  pose proof (lastStorage_None ks None) as Hs.
  pose proof (fold_effect_fileTypes_None ks empty_config) as Hf.
  pose proof (fold_effect_storage ks empty_config) as Hfs. simpl in Hfs.
  rewrite <- Hfs in Hs. simpl in Hf.
  destruct (p_storage (fold_left _ ks empty_config)).
  - destruct (existsb is_storage_call ks);
      [|destruct Hs as [_ Hs]; discriminate Hs; auto].
    destruct (p_fileTypes (fold_left _ ks empty_config)).
    + destruct (existsb is_setFileType ks);
        [simpl; congruence|destruct Hf as [_ Hf]; discriminate Hf; auto].
    + destruct Hf as [Hf _]. destruct (Hf eq_refl) as [_ ->]. reflexivity.
  - destruct Hs as [Hs _]. destruct (Hs eq_refl) as [_ ->]. reflexivity.
Qed.

(** X2. Of several [use...Storage] calls the last one wins: the built
    policy's storage is the one the last such call of the chain
    assigned, whole (no field of an earlier choice survives). *)
Theorem built_storage_is_the_last_choice
    ks (h : gmap nat PartialUploadConfig) r h' cfg :
  forRoot ks h = (inr r, h') ->
  as_UploadConfig (deref h' r) = Some cfg ->
  lastStorage ks None = Some (storage cfg).
Proof.
  intros H Hcfg. apply forRoot_inr in H as (_ & _ & Hd).
  apply as_UploadConfig_fields in Hcfg as (Hs & _).
  rewrite Hd in Hs.
  pose proof (fold_effect_storage ks empty_config) as Hfs. simpl in Hfs.
  rewrite <- Hfs, <- Hs. destruct (JS.truthy _); reflexivity.
Qed.

Lemma built_storage_is_the_last_choice_witness :
  lastStorage
    (Examples.minimal_calls
     ++ [UseS3Storage "AKIA" "secret" "eu-west-1" "media" None;
         UseGCPStorage "proj" "key.json" "assets"]) None
  = Some {| type := "gcp";
            storage_config :=
              GCPCfg {| projectId := "proj"; keyFilename := "key.json";
                        gcp_bucket := "assets" |} |}.
Proof.
  apply (built_storage_is_the_last_choice
           (Examples.minimal_calls
            ++ [UseS3Storage "AKIA" "secret" "eu-west-1" "media" None;
                UseGCPStorage "proj" "key.json" "assets"]) ∅ 0%nat
           (snd (forRoot
                   (Examples.minimal_calls
                    ++ [UseS3Storage "AKIA" "secret" "eu-west-1" "media" None;
                        UseGCPStorage "proj" "key.json" "assets"]) ∅))
           {| storage :=
                {| type := "gcp";
                   storage_config :=
                     GCPCfg {| projectId := "proj"; keyFilename := "key.json";
                               gcp_bucket := "assets" |} |};
              fileTypes := Obj.plain {[ "image/png" := Examples.png_type ]};
              defaultMaxSize := five_MiB;
              virus := None; compression := None; chunks := None |});
    vm_compute; reflexivity.
Defined.

(** X3. Reading [fileTypes[key]] on the built policy gives, for every
    key some [setFileType] call named, the entry of the last such call;
    a key no call named is not an own property. The key ["__proto__"]
    is never an own property: [setFileType("__proto__", c)] makes [c]
    the prototype of [fileTypes] instead. *)
Theorem built_fileTypes_hold_the_last_entry_per_key
    ks (h : gmap nat PartialUploadConfig) r h' cfg name :
  forRoot ks h = (inr r, h') ->
  as_UploadConfig (deref h' r) = Some cfg ->
  (forall c, lastFileType name ks None = Some c ->
             Obj.get (fileTypes cfg) name = Some (Obj.Config c))
  /\ (lastFileType name ks None = None -> own (fileTypes cfg) !! name = None)
  /\ own (fileTypes cfg) !! "__proto__" = None
  /\ proto (fileTypes cfg) = lastFileType "__proto__" ks None.
Proof.
  intros H Hcfg. apply forRoot_inr in H as (_ & _ & Hd).
  apply as_UploadConfig_fields in Hcfg as (_ & Hf & _).
  rewrite Hd in Hf.
  assert (Hf' : p_fileTypes (fold_left (fun c k => effect k c) ks empty_config)
                = Some (fileTypes cfg))
    by (destruct (JS.truthy _); exact Hf).
  destruct (fold_effect_proto ks empty_config eq_refl) as [Hown Hproto].
  rewrite Hf' in Hown, Hproto. simpl in Hown, Hproto.
  assert (Hother : name <> "__proto__" ->
            own (fileTypes cfg) !! name = lastFileType name ks None).
  { intros Hne. pose proof (fold_effect_own name ks Hne empty_config) as Ho.
    rewrite Hf' in Ho. exact Ho. }
  repeat split; try assumption.
  - intros c Hc. unfold Obj.get.
    destruct (String.eqb_spec name "__proto__") as [->|Hne].
    + rewrite Hown, Hproto, Hc. reflexivity.
    + rewrite (Hother Hne), Hc. reflexivity.
  - intros Hnone. destruct (String.eqb_spec name "__proto__") as [->|Hne].
    + exact Hown.
    + rewrite (Hother Hne). exact Hnone.
Qed.

Lemma built_fileTypes_hold_the_last_entry_per_key_witness :
  Obj.get (fileTypes Examples.scanning_local_policy) "image/png"
  = Some (Obj.Config Examples.png_type)
  /\ own (fileTypes Examples.scanning_local_policy) !! "image/gif" = None.
Proof.
  destruct (built_fileTypes_hold_the_last_entry_per_key
              Examples.scanning_calls ∅ 0%nat
              (snd (forRoot Examples.scanning_calls ∅))
              Examples.scanning_local_policy "image/png")
    as (Hget & _); [vm_compute; reflexivity ..|].
  destruct (built_fileTypes_hold_the_last_entry_per_key
              Examples.scanning_calls ∅ 0%nat
              (snd (forRoot Examples.scanning_calls ∅))
              Examples.scanning_local_policy "image/gif")
    as (_ & Hnone & _); [vm_compute; reflexivity ..|].
  split; [apply Hget|apply Hnone]; reflexivity.
Defined.

(** [setFileType("__proto__", c)] adds no key, and the fields of [c]
    then read as entries of [fileTypes]. *)
Example proto_entry_is_inherited :
  let ft := Obj.set (Obj.plain {[ "image/png" := Examples.png_type ]})
              "__proto__" Examples.gif_type in
  own ft !! "__proto__" = None
  /\ Obj.get ft "__proto__" = Some (Obj.Config Examples.gif_type)
  /\ Obj.get ft "maxSize" = Some (Obj.Number 10)
  /\ Obj.get ft "image/png" = Some (Obj.Config Examples.png_type).
Proof. vm_compute. auto. Qed.

(** X4. [build()] is idempotent: called again on a builder it
    succeeded on, it returns the same reference and changes nothing. *)
Theorem build_twice_changes_nothing
    b (h : gmap nat PartialUploadConfig) r h' :
  build b h = (inr r, h') -> build b h' = (inr r, h').
Proof.
  intros H. pose proof (build_inr _ _ _ _ H) as (-> & Hs & Hf & Hd).
  unfold build in *.
  destruct (p_storage (deref h (config b))) eqn:Es; [|contradiction].
  destruct (p_fileTypes (deref h (config b))) eqn:Ef; [|contradiction].
  injection H as <-.
  destruct (JS.truthy (p_defaultMaxSize (deref h (config b)))) eqn:Et.
  - rewrite Es, Ef, Et. reflexivity.
  - rewrite Hd. simpl. rewrite Es, Ef. reflexivity.
Qed.

Lemma build_twice_changes_nothing_witness :
  build {| config := 0%nat |} (snd (forRoot Examples.minimal_calls ∅))
  = (inr 0%nat, snd (forRoot Examples.minimal_calls ∅)).
Proof.
  apply (build_twice_changes_nothing {| config := 0%nat |}
           (calls {| config := 0%nat |} Examples.minimal_calls
              (snd (new_builder ∅)))).
  vm_compute. reflexivity.
Defined.

Lemma forRoot_succeeds ks (h : gmap nat PartialUploadConfig) :
  p_storage (fold_left (fun c k => effect k c) ks empty_config) <> None ->
  p_fileTypes (fold_left (fun c k => effect k c) ks empty_config) <> None ->
  exists h', forRoot ks h = (inr (fresh (dom h)), h').
Proof.
  intros Hs Hf. unfold forRoot.
  pose proof (deref_new_builder h) as Hnew.
  destruct (new_builder h) as [b h1] eqn:Eb. simpl in Hnew.
  assert (Hb : config b = fresh (dom h))
    by (unfold new_builder in Eb; injection Eb as <- _; reflexivity).
  unfold build. rewrite deref_calls_same, Hnew.
  destruct (p_storage _); [|contradiction].
  destruct (p_fileTypes _); [|contradiction].
  rewrite Hb. eauto.
Qed.

(** The fields [uploadFile] reads. *)
Lemma fold_effect_read_fields ks : forall c c',
  p_storage c = p_storage c' -> p_fileTypes c = p_fileTypes c' ->
  p_virus c = p_virus c' -> p_compression c = p_compression c' ->
  let d := fold_left (fun c k => effect k c) ks c in
  let d' := fold_left (fun c k => effect k c)
              (List.filter read_by_uploadFile ks) c' in
  p_storage d = p_storage d' /\ p_fileTypes d = p_fileTypes d'
  /\ p_virus d = p_virus d' /\ p_compression d = p_compression d'.
Proof.
  induction ks as [|k ks IH]; intros c c' Hs Hf Hv Hc; simpl; [auto|].
  destruct k; simpl; apply IH; simpl; rewrite ?Hs, ?Hf, ?Hv, ?Hc;
    reflexivity.
Qed.

Lemma uploadFile_read_fields W cfg cfg' file :
  storage cfg = storage cfg' -> fileTypes cfg = fileTypes cfg' ->
  virus cfg = virus cfg' -> compression cfg = compression cfg' ->
  uploadFile W cfg file = uploadFile W cfg' file.
Proof.
  destruct cfg, cfg'. simpl. intros -> -> -> ->. reflexivity.
Qed.

(** X5. [setDefaultMaxSize] and [enableChunkedUploads] have no effect
    on uploads: dropping every such call from a chain on which
    [build()] succeeds gives a chain on which it succeeds too, and
    [uploadFile] is the same computation under both policies. *)
Theorem defaultMaxSize_and_chunks_do_not_affect_uploads
    ks (h h2 : gmap nat PartialUploadConfig) r h' cfg :
  forRoot ks h = (inr r, h') ->
  as_UploadConfig (deref h' r) = Some cfg ->
  exists r2 h2' cfg2,
    forRoot (List.filter read_by_uploadFile ks) h2 = (inr r2, h2')
    /\ as_UploadConfig (deref h2' r2) = Some cfg2
    /\ forall W file, uploadFile W cfg file = uploadFile W cfg2 file.
Proof.
  intros H Hcfg.
  pose proof (forRoot_inr _ _ _ _ H) as (Hs & Hf & Hd).
  destruct (fold_effect_read_fields ks empty_config empty_config
              eq_refl eq_refl eq_refl eq_refl) as (Es & Ef & Ev & Ec).
  destruct (forRoot_succeeds (List.filter read_by_uploadFile ks) h2)
    as [h2' H2]; [congruence|congruence|].
  destruct (built_as_UploadConfig _ _ _ _ H2) as [cfg2 Hcfg2].
  exists (fresh (dom h2)), h2', cfg2. split; [exact H2|].
  split; [exact Hcfg2|].
  apply forRoot_inr in H2 as (_ & _ & Hd2).
  apply as_UploadConfig_fields in Hcfg as (Cs & Cf & _ & Cv & Cc).
  apply as_UploadConfig_fields in Hcfg2 as (Cs2 & Cf2 & _ & Cv2 & Cc2).
  rewrite Hd in Cs, Cf, Cv, Cc. rewrite Hd2 in Cs2, Cf2, Cv2, Cc2.
  assert (Hfields :
    Some (storage cfg) = Some (storage cfg2)
    /\ Some (fileTypes cfg) = Some (fileTypes cfg2)
    /\ virus cfg = virus cfg2 /\ compression cfg = compression cfg2).
  { rewrite <- Cs, <- Cf, <- Cv, <- Cc, <- Cs2, <- Cf2, <- Cv2, <- Cc2.
    destruct (JS.truthy _), (JS.truthy _); simpl; auto. }
  destruct Hfields as (E1 & E2 & E3 & E4).
  intros W file. apply uploadFile_read_fields; congruence.
Qed.

Lemma defaultMaxSize_and_chunks_do_not_affect_uploads_witness :
  exists r2 h2' cfg2,
    forRoot Examples.scanning_calls ∅ = (inr r2, h2')
    /\ as_UploadConfig (deref h2' r2) = Some cfg2
    /\ run (uploadFile Examples.quiet Examples.scanning_local_policy
              Examples.a_png)
       = run (uploadFile Examples.quiet cfg2 Examples.a_png).
Proof.
  destruct (defaultMaxSize_and_chunks_do_not_affect_uploads
              (Examples.scanning_calls
               ++ [SetDefaultMaxSize 7; EnableChunkedUploads (Some 1024)])
              ∅ ∅ 0%nat
              (snd (forRoot
                      (Examples.scanning_calls
                       ++ [SetDefaultMaxSize 7;
                           EnableChunkedUploads (Some 1024)]) ∅))
              {| storage := storage Examples.scanning_local_policy;
                 fileTypes := fileTypes Examples.scanning_local_policy;
                 defaultMaxSize := 7;
                 virus := virus Examples.scanning_local_policy;
                 compression := None;
                 chunks := Some {| chunks_enabled := true;
                                   chunk_size := Some 1024 |} |})
    as (r2 & h2' & cfg2 & H2 & Hcfg2 & Heq).
  - vm_compute. reflexivity.
  - vm_compute. reflexivity.
  - exists r2, h2', cfg2. split; [exact H2|]. split; [exact Hcfg2|].
    rewrite <- Heq. reflexivity.
Defined.

Lemma lookup_assign_other b f (h : gmap nat PartialUploadConfig) l :
  l <> config b -> assign b f h !! l = h !! l.
Proof. intros Hne. unfold assign. apply lookup_insert_ne. congruence. Qed.

Lemma lookup_calls_other b ks l : forall h : gmap nat PartialUploadConfig,
  l <> config b -> calls b ks h !! l = h !! l.
Proof.
  unfold calls. induction ks as [|k ks IH]; intros h Hne; simpl; [reflexivity|].
  rewrite IH, call_effect, lookup_assign_other; auto.
Qed.

Lemma lookup_build_other b (h : gmap nat PartialUploadConfig) l :
  l <> config b -> snd (build b h) !! l = h !! l.
Proof.
  intros Hne. unfold build.
  destruct (p_storage _); [|reflexivity].
  destruct (p_fileTypes _); [|reflexivity].
  simpl. destruct (JS.truthy _); [reflexivity|].
  apply lookup_assign_other, Hne.
Qed.

(** X6. [forRoot] works on a config object of its own: the reference
    it returns is not one of the heap it started from, and no object
    of that heap is changed. *)
Theorem forRoot_leaves_existing_objects
    ks (h : gmap nat PartialUploadConfig) l :
  is_Some (h !! l) ->
  snd (forRoot ks h) !! l = h !! l /\ fst (forRoot ks h) <> inr l.
Proof.
  intros Hl.
  assert (Hne : l <> fresh (dom h)).
  { intros ->. apply elem_of_dom in Hl. exact (is_fresh (dom h) Hl). }
  unfold forRoot, new_builder. cbv zeta.
  set (b := {| config := fresh (dom h) |}).
  split.
  - rewrite lookup_build_other, lookup_calls_other by exact Hne.
    apply lookup_insert_ne. congruence.
  - unfold build. destruct (p_storage _); [|discriminate].
    destruct (p_fileTypes _); [|discriminate]. simpl. congruence.
Qed.

Lemma forRoot_leaves_existing_objects_witness :
  snd (forRoot [UseLocalStorage "elsewhere"; SetDefaultMaxSize 9]
         (snd (forRoot Examples.minimal_calls ∅))) !! 0%nat
  = snd (forRoot Examples.minimal_calls ∅) !! 0%nat.
Proof.
  apply (forRoot_leaves_existing_objects
           [UseLocalStorage "elsewhere"; SetDefaultMaxSize 9]
           (snd (forRoot Examples.minimal_calls ∅)) 0%nat).
  vm_compute. eauto.
Defined.

(** * Further properties of the validator *)

Lemma contains_decompose c s :
  JS.contains c s = true ->
  exists base e, s = base ++ String c e /\ JS.contains c e = false.
Proof.
  induction s as [|a s IH]; simpl; [discriminate|].
  destruct (JS.contains c s) eqn:Hs.
  - intros _. destruct (IH eq_refl) as (base & e & -> & He).
    exists (String a base), e. split; [reflexivity|exact He].
  - rewrite orb_false_r. intros Ha. apply Ascii.eqb_eq in Ha. subst a.
    exists "", s. split; [reflexivity|exact Hs].
Qed.

Lemma split_after_separator c e : forall base,
  JS.contains c e = false ->
  exists h t, JS.split c (base ++ String c e) = h :: t
              /\ t <> [] /\ last t = Some e.
Proof.
  intros base He. induction base as [|a b IH]; simpl.
  - rewrite Ascii.eqb_refl, (split_without_separator _ _ He).
    exists "", [e]. repeat split. discriminate.
  - destruct IH as (h & t & -> & Ht & Hl).
    destruct (Ascii.eqb a c).
    + exists "", (h :: t). repeat split; [discriminate|].
      destruct t; [contradiction|exact Hl].
    + exists (String a h), t. auto.
Qed.

Lemma extensionOf_after_dot base e :
  JS.contains "."%char e = false ->
  extensionOf (base ++ String "."%char e) = Some e.
Proof.
  intros He. unfold extensionOf, JS.pop.
  destruct (split_after_separator _ _ base He) as (h & t & -> & Ht & Hl).
  destruct t; [contradiction|exact Hl].
Qed.

(** X7. The extension the validator extracts is the text after the
    last dot of the name, or the whole name when it holds no dot:
    [e] is the extension of [name] exactly when [e] holds no dot and
    [name] is [e] or ends with a dot followed by [e]. *)
Theorem extension_is_the_text_after_the_last_dot name e :
  extensionOf name = Some e
  <-> JS.contains "."%char e = false
      /\ (name = e \/ exists base, name = base ++ "." ++ e).
Proof.
  split.
  - intros H. destruct (JS.contains "."%char name) eqn:Hn.
    + destruct (contains_decompose _ _ Hn) as (base & e' & -> & He').
      rewrite (extensionOf_after_dot _ _ He') in H. injection H as <-.
      split; [exact He'|]. right. exists base. reflexivity.
    + rewrite (extensionOf_dotless _ Hn) in H. injection H as <-. auto.
  - intros [He [->|[base ->]]].
    + apply extensionOf_dotless, He.
    + apply (extensionOf_after_dot base e He).
Qed.

Example extension_of_a_tar_gz : extensionOf "a.tar.gz" = Some "gz".
Proof. reflexivity. Qed.

Example extension_of_a_trailing_dot : extensionOf "archive." = Some "".
Proof. reflexivity. Qed.

(** * Further properties of the pipeline *)

Lemma bind_ext {A B} (m : M A) (k k' : A -> M B) log :
  (forall a l, k a l = k' a l) -> bind m k log = bind m k' log.
Proof.
  intros H. unfold bind. destruct (m log) as [[a|e] l]; [apply H|reflexivity].
Qed.

(** [uploadFile] as the sequence of its four stages. *)
Lemma uploadFile_stages W cfg file log :
  uploadFile W cfg file log
  = bind (lift (validateFile W cfg file))
      (fun _ => bind (compressStage W cfg file)
         (fun f => bind (scanStage W cfg f)
            (fun _ => storeFile W cfg f (originalname f)))) log.
Proof.
  unfold uploadFile, compressStage, scanStage.
  apply bind_ext. intros _ l1. apply bind_ext. intros f l2.
  apply bind_ext. intros _ l3. apply bind_ret_r.
Qed.

(** Destructs the values a stage branches on, then runs the
    straight-line program that is left. *)
Ltac branch :=
  repeat match goal with
         | |- context [match ?x with _ => _ end] => destruct x eqn:?
         end.

Ltac run_monad :=
  cbv [bind ret throw emit lift try_catch await_unit].

Ltac close_log :=
  first [ exists []; rewrite app_nil_r; split; [reflexivity|]
        | eexists [_]; split; [reflexivity|]
        | eexists [_; _]; split; [reflexivity|] ].

Lemma storeFile_log W cfg file name log :
  exists evs,
    snd (storeFile W cfg file name log) = (log ++ evs)%list
    /\ Forall (store_event file) evs
    /\ (length evs <= 1)%nat
    /\ (forall url, fst (storeFile W cfg file name log) = Return url ->
                    length evs = 1%nat)
    /\ (forall e, fst (storeFile W cfg file name log) = Throw e ->
                  kind e <> StorageError -> evs = []).
Proof.
  unfold storeFile, storeFileLocally, storeFileToS3, storeFileToAzure,
    storeFileToGCP, await_unit.
  branch; run_monad; simpl; close_log;
    (split; [repeat constructor|]);
    (split; [simpl; lia|]);
    (split; [intros ? ?; try discriminate; reflexivity|]);
    intros ? E Hk; try discriminate; try reflexivity;
    injection E as <-; contradiction.
Qed.

Lemma scanForVirus_log W cfg file log :
  exists evs,
    snd (scanForVirus W cfg file log) = (log ++ evs)%list
    /\ Forall (fun ev => is_scanner_event ev = true
                         /\ forall c, payload ev = Some c -> c = buffer file)
         evs
    /\ (length evs <= 2)%nat.
Proof.
  unfold scanForVirus, await_unit.
  branch; run_monad; simpl; rewrite <- ?app_assoc; simpl; close_log;
    (split; [repeat constructor; simpl; congruence|simpl; lia]).
Qed.

Lemma compressImage_log W cfg file log :
  exists evs,
    snd (compressImage W cfg file log) = (log ++ evs)%list
    /\ Forall (fun ev => is_codec_event ev = true) evs
    /\ (length evs <= 1)%nat.
Proof.
  unfold compressImage, await_unit.
  branch; run_monad; simpl; close_log;
    (split; [repeat constructor|simpl; lia]).
Qed.

Lemma compressImage_returns W cfg file log out l :
  compressImage W cfg file log = (Return out, l) -> compressed W cfg file out.
Proof.
  unfold compressImage, compressed, await_unit.
  destruct (compressionEnabled cfg); simpl.
  2:{ run_monad. intros H. injection H as <- _. auto. }
  branch; run_monad; simpl; intros H; try discriminate;
    injection H as <- _; auto.
Qed.

Lemma compressStage_returns W cfg file log f' l :
  compressStage W cfg file log = (Return f', l) ->
  mimetype f' = mimetype file /\ originalname f' = originalname file
  /\ size f' = size file /\ stage_output W cfg file (buffer f').
Proof.
  unfold compressStage, stage_output.
  destruct (JS.startsWith "image/" (mimetype file)).
  - unfold bind, ret.
    destruct (compressImage W cfg file log) as [[b|e] l1] eqn:E;
      [|discriminate].
    intros H. injection H as <- _. simpl.
    apply compressImage_returns in E. repeat split. right. auto.
  - unfold ret. intros H. injection H as <- _. repeat split. left. auto.
Qed.

Lemma compressStage_log W cfg file log :
  exists evs,
    snd (compressStage W cfg file log) = (log ++ evs)%list
    /\ Forall (fun ev => is_codec_event ev = true) evs
    /\ (length evs <= 1)%nat.
Proof.
  unfold compressStage.
  destruct (JS.startsWith "image/" (mimetype file)).
  - destruct (compressImage_log W cfg file log) as (evs & E & H).
    exists evs. split; [|exact H]. unfold bind, ret.
    destruct (compressImage W cfg file log) as [[b|e] l]; exact E.
  - exists []. simpl. rewrite app_nil_r. repeat split; [constructor|lia].
Qed.

Lemma scanStage_log W cfg file log :
  exists evs,
    snd (scanStage W cfg file log) = (log ++ evs)%list
    /\ Forall (fun ev => is_scanner_event ev = true
                         /\ forall c, payload ev = Some c -> c = buffer file)
         evs
    /\ (length evs <= 2)%nat
    /\ (virusEnabled cfg = false -> evs = []).
Proof.
  unfold scanStage. destruct (virusEnabled cfg).
  - destruct (scanForVirus_log W cfg file log) as (evs & E & HP & Hn).
    exists evs. repeat split; auto. discriminate.
  - exists []. simpl. rewrite app_nil_r. repeat split; [constructor|lia].
Qed.

(** The log and the outcome of a whole run. *)
Lemma uploadFile_run W cfg file r log :
  run (uploadFile W cfg file) = (r, log) ->
  exists l1 l2 l3,
    log = (l1 ++ l2 ++ l3)%list
    /\ staged W cfg file l1 l2 l3
    /\ (forall url, r = Return url -> length l3 = 1%nat)
    /\ (forall e, r = Throw e -> kind e <> StorageError -> l3 = []).
Proof.
  unfold run. rewrite uploadFile_stages.
  assert (Hnil : staged W cfg file [] [] []).
  { split; try constructor; simpl; auto; lia. }
  destruct (validateFile W cfg file) as [[]|e0].
  2:{ rewrite bind_lift_Throw. intros H. injection H as <- <-.
      exists [], [], []. repeat split; try apply Hnil; auto; discriminate. }
  rewrite bind_lift_Return.
  destruct (compressStage_log W cfg file []) as (l1 & E1 & Hc & Hn1).
  destruct (compressStage W cfg file []) as [[f'|e] l1'] eqn:Est;
    simpl in E1; subst l1'.
  2:{ rewrite (bind_Throw _ _ _ _ _ Est). intros H. injection H as <- <-.
      exists l1, [], []. rewrite app_nil_r.
      repeat split; try apply Hnil; auto; discriminate. }
  rewrite (bind_Return _ _ _ _ _ Est).
  apply compressStage_returns in Est as (_ & _ & _ & Hout).
  destruct (scanStage_log W cfg f' l1) as (l2 & E2 & Hs & Hn2 & Hoff).
  assert (Hs' : Forall (fun ev => is_scanner_event ev = true
                  /\ forall c, payload ev = Some c
                               -> stage_output W cfg file c) l2).
  { eapply Forall_impl; [exact Hs|]. intros ev [? Hp]. split; [assumption|].
    intros c Hc'. rewrite (Hp c Hc'). exact Hout. }
  destruct (scanStage W cfg f' l1) as [[[]|e] l2'] eqn:Esc;
    simpl in E2; subst l2'.
  2:{ rewrite (bind_Throw _ _ _ _ _ Esc). intros H. injection H as <- <-.
      exists l1, l2, []. rewrite app_nil_r.
      repeat split; try apply Hnil; auto; discriminate. }
  rewrite (bind_Return _ _ _ _ _ Esc).
  destruct (storeFile_log W cfg f' (originalname f') (l1 ++ l2)%list)
    as (l3 & E3 & Hst & Hn3 & Hret & Hthr).
  destruct (storeFile W cfg f' (originalname f') (l1 ++ l2)%list)
    as [r' l3'] eqn:Estore; simpl in E3, Hret, Hthr; subst l3'.
  intros H. injection H as <- <-.
  exists l1, l2, l3. rewrite <- app_assoc.
  repeat split; auto.
  eapply Forall_impl; [exact Hst|]. intros ev [? Hp]. split; [assumption|].
  intros c Hc'. rewrite Hp in Hc'. injection Hc' as <-. exact Hout.
Qed.

Lemma stage_events_disjoint ev :
  (is_codec_event ev = true ->
   is_scanner_event ev = false /\ is_storage_event ev = false)
  /\ (is_scanner_event ev = true ->
      is_codec_event ev = false /\ is_storage_event ev = false)
  /\ (is_storage_event ev = true ->
      is_codec_event ev = false /\ is_scanner_event ev = false).
Proof. destruct ev; simpl; repeat split; congruence. Qed.

(** X8. The collaborators are called in the order of the stages: the
    log of every run is at most one codec call, then at most two
    scanner calls (init, scan), then at most one storage call. *)
Theorem upload_calls_codec_then_scanner_then_storage W cfg file :
  exists codec scanner store,
    snd (run (uploadFile W cfg file)) = (codec ++ scanner ++ store)%list
    /\ Forall (fun ev => is_codec_event ev = true) codec
    /\ Forall (fun ev => is_scanner_event ev = true) scanner
    /\ Forall (fun ev => is_storage_event ev = true) store
    /\ (length codec <= 1)%nat /\ (length scanner <= 2)%nat
    /\ (length store <= 1)%nat.
Proof.
  destruct (run (uploadFile W cfg file)) as [r log] eqn:E.
  destruct (uploadFile_run _ _ _ _ _ E) as (l1 & l2 & l3 & -> & [] & _).
  exists l1, l2, l3. simpl. repeat split; auto.
  - eapply Forall_impl; [eassumption|]. simpl. tauto.
  - eapply Forall_impl; [eassumption|]. simpl. tauto.
Qed.

(** X9. A successful upload wrote exactly once, as its last step:
    the log ends with the one storage call, and nothing before it is
    a storage call. *)
Theorem successful_upload_stored_once_at_the_end W cfg file url log :
  run (uploadFile W cfg file) = (Return url, log) ->
  exists before ev,
    log = (before ++ [ev])%list
    /\ is_storage_event ev = true
    /\ Forall (fun e => is_storage_event e = false) before.
Proof.
  intros E.
  destruct (uploadFile_run _ _ _ _ _ E)
    as (l1 & l2 & l3 & -> & [Hc Hs Hst _ _ _ _] & Hret & _).
  specialize (Hret url eq_refl).
  destruct l3 as [|ev [|? ?]]; try discriminate.
  exists (l1 ++ l2)%list, ev. rewrite app_assoc. split; [reflexivity|].
  inversion Hst as [|? ? [Hev _] _]; subst. split; [exact Hev|].
  apply Forall_app. split.
  - eapply Forall_impl; [exact Hc|]. intros e He.
    apply stage_events_disjoint in He. tauto.
  - eapply Forall_impl; [exact Hs|]. intros e [He _].
    apply stage_events_disjoint in He. tauto.
Qed.

Lemma successful_upload_stored_once_at_the_end_witness :
  exists before ev,
    [ClamInit "localhost" 3310 60000;
     ClamScanStream (buffer Examples.a_png);
     FsWriteFile "uploads/a.png" (buffer Examples.a_png)]
    = (before ++ [ev])%list
    /\ is_storage_event ev = true
    /\ Forall (fun e => is_storage_event e = false) before.
Proof.
  apply (successful_upload_stored_once_at_the_end Examples.quiet
           Examples.scanning_local_policy Examples.a_png "uploads/a.png").
  reflexivity.
Defined.

(** X10. No partial persistence: when [uploadFile] throws an error
    that is not a backend's own rejection, no storage backend was
    called. *)
Theorem failed_upload_stored_nothing W cfg file e log :
  run (uploadFile W cfg file) = (Throw e, log) ->
  kind e <> StorageError ->
  Forall (fun ev => is_storage_event ev = false) log.
Proof.
  intros E Hk.
  destruct (uploadFile_run _ _ _ _ _ E)
    as (l1 & l2 & l3 & -> & [Hc Hs _ _ _ _ _] & _ & Hthr).
  rewrite (Hthr e eq_refl Hk), app_nil_r.
  apply Forall_app. split.
  - eapply Forall_impl; [exact Hc|]. intros ev He.
    apply stage_events_disjoint in He. tauto.
  - eapply Forall_impl; [exact Hs|]. intros ev [He _].
    apply stage_events_disjoint in He. tauto.
Qed.

Lemma failed_upload_stored_nothing_witness :
  Forall (fun ev => is_storage_event ev = false)
    [ClamInit "localhost" 3310 60000;
     ClamScanStream (buffer Examples.a_png)].
Proof.
  apply (failed_upload_stored_nothing Cases.dropped_scan
           (Examples.png_policy None (Some Examples.scanning)) Examples.a_png
           (mkError ScanFailed "Virus scan failed: ECONNRESET")).
  - reflexivity.
  - discriminate.
Defined.

(** X11. With virus scanning absent or disabled, the ClamAV client
    is never called. *)
Theorem scanner_is_not_called_when_scanning_is_off W cfg file :
  virusEnabled cfg = false ->
  Forall (fun ev => is_scanner_event ev = false)
    (snd (run (uploadFile W cfg file))).
Proof.
  intros Hoff.
  destruct (run (uploadFile W cfg file)) as [r log] eqn:E.
  destruct (uploadFile_run _ _ _ _ _ E)
    as (l1 & l2 & l3 & -> & [Hc _ Hst _ _ _ Hnone] & _).
  rewrite (Hnone Hoff). simpl. apply Forall_app. split.
  - eapply Forall_impl; [exact Hc|]. intros ev He.
    apply stage_events_disjoint in He. tauto.
  - eapply Forall_impl; [exact Hst|]. intros ev [He _].
    apply stage_events_disjoint in He. tauto.
Qed.

Lemma scanner_is_not_called_when_scanning_is_off_witness :
  Forall (fun ev => is_scanner_event ev = false)
    (snd (run (uploadFile Cases.unreachable_scanner
                 (Examples.png_policy None None) Examples.a_png)))
  /\ fst (run (uploadFile Cases.unreachable_scanner
                 (Examples.png_policy None None) Examples.a_png))
     = Return "https://media.s3.eu-west-1.amazonaws.com/a.png".
Proof.
  split; [|reflexivity].
  apply (scanner_is_not_called_when_scanning_is_off).
  reflexivity.
Defined.

(** X12. When compression applies (an image, compression enabled) and
    the codec answers [out], it is [out] that the scanner and the
    storage backend are given. *)
Theorem compressed_bytes_are_scanned_and_stored W cfg file out :
  JS.startsWith "image/" (mimetype file) = true ->
  compressionEnabled cfg = true ->
  sharp_toBuffer W (buffer file) (sharpPipeline (compressionSettings cfg))
  = inr out ->
  Forall (fun ev => forall c, payload ev = Some c -> c = out)
    (snd (run (uploadFile W cfg file))).
Proof.
  intros Himg Hen Hout.
  destruct (run (uploadFile W cfg file)) as [r log] eqn:E.
  destruct (uploadFile_run _ _ _ _ _ E)
    as (l1 & l2 & l3 & -> & [Hc Hs Hst _ _ _ _] & _).
  assert (Hstage : forall c, stage_output W cfg file c -> c = out).
  { intros c [[Hf _]|[_ [[Hf _]|[_ Hc']]]]; congruence. }
  simpl. repeat (apply Forall_app; split).
  - eapply Forall_impl; [exact Hc|]. intros ev He c Hp.
    destruct ev; simpl in *; discriminate.
  - eapply Forall_impl; [exact Hs|]. intros ev [_ Hp] c Hc'. eauto.
  - eapply Forall_impl; [exact Hst|]. intros ev [_ Hp] c Hc'. eauto.
Qed.

Lemma compressed_bytes_are_scanned_and_stored_witness :
  snd (run (uploadFile Cases.shrinking (Examples.resizing_policy (Some 80))
              Examples.a_png))
  = [SharpToBuffer (buffer Examples.a_png)
       [Resize (Some 800) (Some 600); Jpeg 80];
     S3Send
       {| client_region := Some "eu-west-1"; client_endpoint := None;
          client_accessKeyId := Some "AKIA";
          client_secretAccessKey := Some "secret" |}
       {| Bucket := Some "media"; Key := "a.png"; Body := [xff; xd8];
          ContentType := "image/png" |}]
  /\ Forall (fun ev => forall c, payload ev = Some c -> c = [xff; xd8])
       (snd (run (uploadFile Cases.shrinking
                    (Examples.resizing_policy (Some 80)) Examples.a_png))).
Proof.
  split; [reflexivity|].
  apply compressed_bytes_are_scanned_and_stored; reflexivity.
Defined.

Lemma scanForVirus_configured W cfg file v s log :
  virus cfg = Some v ->
  virus_enabled v = true ->
  virus_config v = Some s ->
  scanForVirus W cfg file log =
    let init := ClamInit (host (clamav s)) (port (clamav s)) 60000 in
    match clam_init W (host (clamav s)) (port (clamav s)) with
    | Some msg => (Throw (mkError CollaboratorError msg), (log ++ [init])%list)
    | None =>
        match clam_scanStream W (host (clamav s)) (port (clamav s))
                (buffer file) with
        | inl msg =>
            (Throw (mkError ScanFailed ("Virus scan failed: " ++ msg)),
             (log ++ [init; ClamScanStream (buffer file)])%list)
        | inr (true, viruses) =>
            (Throw (mkError ScanFailed
                      ("Virus scan failed: File is infected. Viruses found: "
                       ++ JS.join ", " viruses)),
             (log ++ [init; ClamScanStream (buffer file)])%list)
        | inr (false, _) =>
            (Return tt, (log ++ [init; ClamScanStream (buffer file)])%list)
        end
    end.
Proof.
  intros Hv Hen Hs. unfold scanForVirus, virusEnabled, await_unit.
  rewrite Hv, Hen, Hs. simpl negb. cbv iota zeta.
  destruct (clam_init W _ _); [reflexivity|].
  run_monad. simpl.
  destruct (clam_scanStream W _ _ _) as [msg|[[] vs]]; simpl;
    rewrite <- app_assoc; reflexivity.
Qed.

Lemma uploadFile_after_compression W cfg file f' l1 :
  validateFile W cfg file = Return tt ->
  compressStage W cfg file [] = (Return f', l1) ->
  run (uploadFile W cfg file)
  = bind (scanStage W cfg f')
      (fun _ => storeFile W cfg f' (originalname file)) l1.
Proof.
  intros Hval Hst. unfold run. rewrite uploadFile_stages, Hval.
  rewrite bind_lift_Return, (bind_Return _ _ _ _ _ Hst).
  apply compressStage_returns in Hst as (_ & -> & _). reflexivity.
Qed.

(** X13. How the scanner's answers end an upload that reached the scan
    stage. A rejected [init] is thrown as it is, the stream never being
    opened; a rejected [scanStream] is thrown again with its message
    after "Virus scan failed: "; a clean verdict hands the file on to
    the storage backend. Nothing is stored in the first two cases. *)
Theorem scanner_answers_end_the_upload W cfg file v s f' l1 :
  virus cfg = Some v ->
  virus_enabled v = true ->
  virus_config v = Some s ->
  validateFile W cfg file = Return tt ->
  compressStage W cfg file [] = (Return f', l1) ->
  (forall msg,
      clam_init W (host (clamav s)) (port (clamav s)) = Some msg ->
      run (uploadFile W cfg file)
      = (Throw (mkError CollaboratorError msg),
         (l1 ++ [ClamInit (host (clamav s)) (port (clamav s)) 60000])%list))
  /\ (forall msg,
        clam_init W (host (clamav s)) (port (clamav s)) = None ->
        clam_scanStream W (host (clamav s)) (port (clamav s)) (buffer f')
        = inl msg ->
        run (uploadFile W cfg file)
        = (Throw (mkError ScanFailed ("Virus scan failed: " ++ msg)),
           (l1 ++ [ClamInit (host (clamav s)) (port (clamav s)) 60000;
                   ClamScanStream (buffer f')])%list))
  /\ (forall vs,
        clam_init W (host (clamav s)) (port (clamav s)) = None ->
        clam_scanStream W (host (clamav s)) (port (clamav s)) (buffer f')
        = inr (false, vs) ->
        run (uploadFile W cfg file)
        = storeFile W cfg f' (originalname file)
            (l1 ++ [ClamInit (host (clamav s)) (port (clamav s)) 60000;
                    ClamScanStream (buffer f')])%list).
Proof.
  intros Hv Hen Hs Hval Hst.
  rewrite (uploadFile_after_compression _ _ _ _ _ Hval Hst).
  assert (Hon : virusEnabled cfg = true)
    by (unfold virusEnabled; rewrite Hv; exact Hen).
  unfold scanStage. rewrite Hon.
  pose proof (scanForVirus_configured W cfg f' v s l1 Hv Hen Hs) as E.
  cbv zeta in E. repeat split.
  - intros msg Hi. rewrite Hi in E. apply (bind_Throw _ _ _ _ _ E).
  - intros msg Hi Hsc. rewrite Hi, Hsc in E. apply (bind_Throw _ _ _ _ _ E).
  - intros vs Hi Hsc. rewrite Hi, Hsc in E.
    rewrite (bind_Return _ _ _ _ _ E). reflexivity.
Qed.

Lemma scanner_answers_end_the_upload_witness :
  run (uploadFile Cases.dropped_scan
         (Examples.png_policy None (Some Examples.scanning)) Examples.a_png)
  = (Throw (mkError ScanFailed "Virus scan failed: ECONNRESET"),
     [ClamInit "localhost" 3310 60000;
      ClamScanStream (buffer Examples.a_png)])
  /\ run (uploadFile Cases.unreachable_scanner
            (Examples.png_policy None (Some Examples.scanning))
            Examples.a_png)
     = (Throw (mkError CollaboratorError "ECONNREFUSED"),
        [ClamInit "localhost" 3310 60000]).
Proof.
  split.
  - apply (scanner_answers_end_the_upload Cases.dropped_scan
             (Examples.png_policy None (Some Examples.scanning))
             Examples.a_png Examples.scanning
             {| clamav := {| host := "localhost"; port := 3310 |} |}
             Examples.a_png []); reflexivity.
  - apply (scanner_answers_end_the_upload Cases.unreachable_scanner
             (Examples.png_policy None (Some Examples.scanning))
             Examples.a_png Examples.scanning
             {| clamav := {| host := "localhost"; port := 3310 |} |}
             Examples.a_png []); reflexivity.
Defined.

Lemma compressImage_fails W cfg file msg log :
  compressionEnabled cfg = true ->
  sharp_toBuffer W (buffer file) (sharpPipeline (compressionSettings cfg))
  = inl msg ->
  compressImage W cfg file log
  = (Throw (mkError CompressionError ("Image compression failed: " ++ msg)),
     (log ++ [SharpToBuffer (buffer file)
                (sharpPipeline (compressionSettings cfg))])%list)
  \/ exists e, compressImage W cfg file log = (Throw e, log)
               /\ kind e = CollaboratorError.
Proof.
  intros Hen Hbuf. unfold compressImage, await_unit. rewrite Hen, Hbuf.
  branch; try discriminate; run_monad; simpl; eauto.
Qed.

(** X14. A codec failure aborts the upload before the scanner and the
    storage backend: when [toBuffer] rejects with [msg], [uploadFile]
    throws "Image compression failed: " followed by [msg], its log
    holding the codec call alone (or, when sharp already rejected the
    resize or quality argument, that rejection and an empty log). *)
Theorem codec_failure_aborts_the_upload W cfg file msg :
  validateFile W cfg file = Return tt ->
  JS.startsWith "image/" (mimetype file) = true ->
  compressionEnabled cfg = true ->
  sharp_toBuffer W (buffer file) (sharpPipeline (compressionSettings cfg))
  = inl msg ->
  run (uploadFile W cfg file)
  = (Throw (mkError CompressionError ("Image compression failed: " ++ msg)),
     [SharpToBuffer (buffer file) (sharpPipeline (compressionSettings cfg))])
  \/ exists e, run (uploadFile W cfg file) = (Throw e, [])
               /\ kind e = CollaboratorError.
Proof.
  intros Hval Himg Hen Hbuf. unfold run.
  rewrite uploadFile_stages, Hval, bind_lift_Return.
  unfold compressStage. rewrite Himg.
  destruct (compressImage_fails W cfg file msg [] Hen Hbuf)
    as [E|(e & E & Hk)].
  - left. apply bind_Throw. apply (bind_Throw _ _ _ _ _ E).
  - right. exists e. split; [|exact Hk].
    apply bind_Throw. apply (bind_Throw _ _ _ _ _ E).
Qed.

Lemma codec_failure_aborts_the_upload_witness :
  run (uploadFile Cases.broken_codec (Examples.resizing_policy (Some 80))
         Examples.a_png)
  = (Throw (mkError CompressionError
              "Image compression failed: Input buffer contains unsupported image format"),
     [SharpToBuffer (buffer Examples.a_png)
        [Resize (Some 800) (Some 600); Jpeg 80]]).
Proof.
  destruct (codec_failure_aborts_the_upload Cases.broken_codec
              (Examples.resizing_policy (Some 80)) Examples.a_png
              "Input buffer contains unsupported image format"
              eq_refl eq_refl eq_refl eq_refl)
    as [E|(e & E & _)].
  - exact E.
  - vm_compute in E. discriminate E.
Defined.

(** A run that returns has stored the file that left the compression
    stage, under the original name. *)
Lemma uploadFile_returns W cfg file url log :
  run (uploadFile W cfg file) = (Return url, log) ->
  exists f' l2,
    mimetype f' = mimetype file
    /\ stage_output W cfg file (buffer f')
    /\ storeFile W cfg f' (originalname file) l2 = (Return url, log).
Proof.
  unfold run. rewrite uploadFile_stages.
  destruct (validateFile W cfg file) as [[]|e0];
    [rewrite bind_lift_Return|rewrite bind_lift_Throw; discriminate].
  destruct (compressStage W cfg file []) as [[f'|e] l1] eqn:Est;
    [rewrite (bind_Return _ _ _ _ _ Est)
    |rewrite (bind_Throw _ _ _ _ _ Est); discriminate].
  apply compressStage_returns in Est as (Hm & Hn & _ & Hout).
  destruct (scanStage W cfg f' l1) as [[[]|e] l2] eqn:Esc;
    [rewrite (bind_Return _ _ _ _ _ Esc)
    |rewrite (bind_Throw _ _ _ _ _ Esc); discriminate].
  rewrite Hn. intros H. exists f', l2. auto.
Qed.

Lemma storeFile_local W cfg file name lc log :
  type (storage cfg) = "local" ->
  storage_config (storage cfg) = LocalCfg lc ->
  storeFile W cfg file name log =
    match path_join W (Some (destination lc)) name with
    | inl msg => (Throw (mkError StorageError msg), log)
    | inr filePath =>
        match fs_writeFile W filePath (buffer file) with
        | None =>
            (Return filePath,
             (log ++ [FsWriteFile filePath (buffer file)])%list)
        | Some msg =>
            (Throw (mkError StorageError msg),
             (log ++ [FsWriteFile filePath (buffer file)])%list)
        end
    end.
Proof.
  intros Ht Hc. unfold storeFile, storeFileLocally, await_unit.
  rewrite Ht, Hc. simpl.
  destruct (path_join W _ _); [reflexivity|].
  run_monad. destruct (fs_writeFile W _ _); reflexivity.
Qed.

Lemma storeFile_gcp W cfg file name g log :
  type (storage cfg) = "gcp" ->
  storage_config (storage cfg) = GCPCfg g ->
  let save :=
    GCPSave (Some (projectId g)) (Some (keyFilename g))
      (Some (gcp_bucket g)) name (buffer file) (mimetype file) in
  storeFile W cfg file name log =
    match gcp_save W (Some (projectId g)) (Some (keyFilename g))
            (Some (gcp_bucket g)) name (buffer file) with
    | None =>
        (Return ("https://storage.googleapis.com/" ++ gcp_bucket g ++ "/"
                 ++ name), (log ++ [save])%list)
    | Some msg => (Throw (mkError StorageError msg), (log ++ [save])%list)
    end.
Proof.
  intros Ht Hc. unfold storeFile, storeFileToGCP, await_unit.
  rewrite Ht, Hc. simpl. run_monad.
  destruct (gcp_save W _ _ _ _ _); reflexivity.
Qed.

Lemma storeFile_azure W cfg file name a log :
  type (storage cfg) = "azure" ->
  storage_config (storage cfg) = AzureCfg a ->
  let upload :=
    AzureUpload (Some (connectionString a)) (Some (container a)) name
      (buffer file) (length (buffer file)) (mimetype file) in
  storeFile W cfg file name log =
    match azure_blob_client W (Some (connectionString a))
            (Some (container a)) name with
    | inl msg => (Throw (mkError StorageError msg), log)
    | inr url =>
        match azure_upload W (Some (connectionString a))
                (Some (container a)) name (buffer file) with
        | None => (Return url, (log ++ [upload])%list)
        | Some msg =>
            (Throw (mkError StorageError msg), (log ++ [upload])%list)
        end
    end.
Proof.
  intros Ht Hc. unfold storeFile, storeFileToAzure, await_unit.
  rewrite Ht, Hc. simpl.
  destruct (azure_blob_client W _ _ _); [reflexivity|].
  run_monad. destruct (azure_upload W _ _ _ _); reflexivity.
Qed.

(** X15. Under a local-storage policy, the locator a successful upload
    returns is the very path the bytes were written to: the join of
    the configured destination and the file's original name. *)
Theorem local_locator_is_the_path_written W cfg file lc url log :
  type (storage cfg) = "local" ->
  storage_config (storage cfg) = LocalCfg lc ->
  run (uploadFile W cfg file) = (Return url, log) ->
  path_join W (Some (destination lc)) (originalname file) = inr url
  /\ exists before body,
       log = (before ++ [FsWriteFile url body])%list
       /\ stage_output W cfg file body.
Proof.
  intros Ht Hc H.
  apply uploadFile_returns in H as (f' & l2 & _ & Hout & H).
  rewrite (storeFile_local W cfg f' _ lc l2 Ht Hc) in H.
  destruct (path_join W _ _) as [msg|p]; [discriminate|].
  destruct (fs_writeFile W _ _); [discriminate|].
  injection H as <- <-. split; [reflexivity|]. eauto.
Qed.

Lemma local_locator_is_the_path_written_witness :
  run (uploadFile Examples.quiet (Cases.policy_on Cases.local_storage)
         Examples.a_png)
  = (Return "uploads/a.png",
     [FsWriteFile "uploads/a.png" (buffer Examples.a_png)])
  /\ path_join Examples.quiet (Some "uploads") "a.png" = inr "uploads/a.png".
Proof.
  split; [reflexivity|].
  apply (local_locator_is_the_path_written Examples.quiet
           (Cases.policy_on Cases.local_storage) Examples.a_png
           {| destination := "uploads" |} "uploads/a.png"
           [FsWriteFile "uploads/a.png" (buffer Examples.a_png)]);
    reflexivity.
Defined.

(** X16. Under a GCP policy with bucket [B], a successful upload saved
    the bytes under the file's original name [K], with the file's MIME
    type as content type, and returns
    [https://storage.googleapis.com/B/K]. *)
Theorem gcp_locator_is_the_public_url W cfg file g url log :
  type (storage cfg) = "gcp" ->
  storage_config (storage cfg) = GCPCfg g ->
  run (uploadFile W cfg file) = (Return url, log) ->
  url = "https://storage.googleapis.com/" ++ gcp_bucket g ++ "/"
        ++ originalname file
  /\ exists before body,
       log = (before ++
              [GCPSave (Some (projectId g)) (Some (keyFilename g))
                 (Some (gcp_bucket g)) (originalname file) body
                 (mimetype file)])%list.
Proof.
  intros Ht Hc H.
  apply uploadFile_returns in H as (f' & l2 & Hm & _ & H).
  rewrite (storeFile_gcp W cfg f' _ g l2 Ht Hc), Hm in H.
  destruct (gcp_save W _ _ _ _ _); [discriminate|].
  injection H as <- <-. split; [reflexivity|]. eauto.
Qed.

Lemma gcp_locator_is_the_public_url_witness :
  run (uploadFile Examples.quiet (Cases.policy_on Cases.gcp_storage)
         Examples.a_png)
  = (Return "https://storage.googleapis.com/assets/a.png",
     [GCPSave (Some "proj") (Some "key.json") (Some "assets") "a.png"
        (buffer Examples.a_png) "image/png"])
  /\ "https://storage.googleapis.com/assets/a.png"
     = "https://storage.googleapis.com/" ++ "assets" ++ "/" ++ "a.png".
Proof.
  split; [reflexivity|].
  apply (gcp_locator_is_the_public_url Examples.quiet
           (Cases.policy_on Cases.gcp_storage) Examples.a_png
           {| projectId := "proj"; keyFilename := "key.json";
              gcp_bucket := "assets" |}
           "https://storage.googleapis.com/assets/a.png"
           [GCPSave (Some "proj") (Some "key.json") (Some "assets") "a.png"
              (buffer Examples.a_png) "image/png"]);
    reflexivity.
Defined.

(** X17. Under an Azure policy, a successful upload sent the bytes to
    the block blob named after the file, giving their exact length and
    the file's MIME type, and returns the URL of that blob client. *)
Theorem azure_locator_is_the_blob_url W cfg file a url log :
  type (storage cfg) = "azure" ->
  storage_config (storage cfg) = AzureCfg a ->
  run (uploadFile W cfg file) = (Return url, log) ->
  azure_blob_client W (Some (connectionString a)) (Some (container a))
    (originalname file) = inr url
  /\ exists before body,
       log = (before ++
              [AzureUpload (Some (connectionString a)) (Some (container a))
                 (originalname file) body (length body)
                 (mimetype file)])%list.
Proof.
  intros Ht Hc H.
  apply uploadFile_returns in H as (f' & l2 & Hm & _ & H).
  rewrite (storeFile_azure W cfg f' _ a l2 Ht Hc), Hm in H.
  destruct (azure_blob_client W _ _ _) as [msg|u]; [discriminate|].
  destruct (azure_upload W _ _ _ _); [discriminate|].
  injection H as <- <-. split; [reflexivity|]. eauto.
Qed.

Lemma azure_locator_is_the_blob_url_witness :
  run (uploadFile Examples.quiet (Cases.policy_on Cases.azure_storage)
         Examples.a_png)
  = (Return "a.png",
     [AzureUpload (Some "UseDevelopmentStorage=true") (Some "media") "a.png"
        (buffer Examples.a_png) 4%nat "image/png"])
  /\ azure_blob_client Examples.quiet (Some "UseDevelopmentStorage=true")
       (Some "media") "a.png" = inr "a.png".
Proof.
  split; [reflexivity|].
  apply (azure_locator_is_the_blob_url Examples.quiet
           (Cases.policy_on Cases.azure_storage) Examples.a_png
           {| connectionString := "UseDevelopmentStorage=true";
              container := "media" |} "a.png"
           [AzureUpload (Some "UseDevelopmentStorage=true") (Some "media")
              "a.png" (buffer Examples.a_png) 4%nat "image/png"]);
    reflexivity.
Defined.

(** * Built policies in the pipeline *)

Lemma lastStorage_well_tagged ks : forall acc,
  (forall st, acc = Some st -> well_tagged st) ->
  forall st, lastStorage ks acc = Some st -> well_tagged st.
Proof.
  induction ks as [|k ks IH]; intros acc Hacc st; simpl; [apply Hacc|].
  apply IH. intros st'. destruct k; simpl; try apply Hacc;
    intros H; injection H as <-; reflexivity.
Qed.

Lemma storeFile_tagged_throws W cfg file name :
  well_tagged (storage cfg) ->
  throws (fun e => kind e = StorageError) (storeFile W cfg file name).
Proof.
  unfold well_tagged, storeFile.
  destruct (storage_config (storage cfg)); intros ->; simpl;
    unfold storeFileLocally, storeFileToS3, storeFileToAzure, storeFileToGCP;
    repeat throws_step; reflexivity.
Qed.

Lemma uploadFile_throws W cfg file (K : Error -> Prop) :
  (forall e, validateFile W cfg file = Throw e -> K e) ->
  (forall e, codec_error e -> K e) ->
  (forall f, throws K (scanForVirus W cfg f)) ->
  (forall f name, throws K (storeFile W cfg f name)) ->
  throws K (uploadFile W cfg file).
Proof.
  intros Hval Hcodec Hscan Hstore. unfold uploadFile.
  apply throws_bind; [|intros _].
  { intros log e log' H. unfold lift in H. injection H as Hv _. auto. }
  apply throws_bind; [|intros f'].
  { destruct (JS.startsWith "image/" (mimetype file)); [|apply throws_ret].
    apply throws_bind; [|intros b; apply throws_ret].
    eapply throws_weaken; [|apply compressImage_throws]. exact Hcodec. }
  apply throws_bind; [|intros _].
  { destruct (virusEnabled cfg); [apply Hscan|apply throws_ret]. }
  apply throws_bind; [apply Hstore|intros p; apply throws_ret].
Qed.

Lemma scanForVirus_throws W cfg file :
  throws (fun e => kind e = ScannerMisconfigured
                   \/ kind e = CollaboratorError \/ kind e = ScanFailed)
    (scanForVirus W cfg file).
Proof.
  unfold scanForVirus.
  destruct (negb (virusEnabled cfg)); [apply throws_ret|].
  destruct (match virus cfg with Some _ => _ | None => _ end);
    [|apply throws_throw; auto].
  apply throws_bind; [apply throws_emit|intros _].
  apply throws_bind; [apply throws_await_unit; intros msg; auto|intros _].
  intros log e log'. unfold try_catch.
  destruct (bind _ _ log) as [[[]|e0] l]; [discriminate|].
  unfold throw. intros H. injection H as <- _. auto.
Qed.

(** X18. In every policy [build()] returns, the storage tag names the
    variant of the backend configuration it comes with, so [uploadFile]
    run under such a policy never throws "Unsupported storage type". *)
Theorem built_policy_names_its_backend
    ks (h : gmap nat PartialUploadConfig) r h' cfg :
  forRoot ks h = (inr r, h') ->
  as_UploadConfig (deref h' r) = Some cfg ->
  well_tagged (storage cfg)
  /\ forall W file,
       throws (fun e => kind e <> UnsupportedStorageType)
         (uploadFile W cfg file).
Proof.
  intros H Hcfg.
  assert (Htag : well_tagged (storage cfg)).
  { apply forRoot_inr in H as (_ & _ & Hd).
    apply as_UploadConfig_fields in Hcfg as (Hs & _). rewrite Hd in Hs.
    pose proof (fold_effect_storage ks empty_config) as Hfs. simpl in Hfs.
    apply (lastStorage_well_tagged ks None); [discriminate|].
    rewrite <- Hfs, <- Hs. destruct (JS.truthy _); reflexivity. }
  split; [exact Htag|]. intros W file. apply uploadFile_throws.
  - intros e He. apply validateFile_throws in He. intros E. rewrite E in He.
    repeat destruct He as [He|He]; discriminate.
  - intros e [E|E]; rewrite E; discriminate.
  - intros f. eapply throws_weaken; [|apply scanForVirus_throws].
    intros e [E|[E|E]]; rewrite E; discriminate.
  - intros f name. eapply throws_weaken; [|apply storeFile_tagged_throws, Htag].
    intros e E. rewrite E. discriminate.
Qed.

Lemma built_policy_names_its_backend_witness :
  well_tagged (storage Examples.scanning_local_policy)
  /\ throws (fun e => kind e <> UnsupportedStorageType)
       (uploadFile Examples.quiet Examples.scanning_local_policy
          Examples.a_png).
Proof.
  destruct (built_policy_names_its_backend Examples.scanning_calls ∅ 0%nat
              (snd (forRoot Examples.scanning_calls ∅))
              Examples.scanning_local_policy) as [Ht Hthrows].
  - vm_compute. reflexivity.
  - vm_compute. reflexivity.
  - split; [exact Ht|apply Hthrows].
Defined.

Lemma fold_effect_virus ks : forall c,
  (forall v, p_virus c = Some v -> virus_enabled v = true) ->
  let d := fold_left (fun c k => effect k c) ks c in
  (forall v, p_virus d = Some v -> virus_enabled v = true)
  /\ (p_virus d = None
      <-> p_virus c = None /\ existsb is_enableVirusScanning ks = false).
Proof.
  induction ks as [|k ks IH]; intros c Hc; simpl; [tauto|].
  destruct (IH (effect k c)) as [H1 H2].
  { destruct k; simpl; try exact Hc.
    intros v H. injection H as <-. reflexivity. }
  split; [exact H1|]. rewrite H2.
  destruct k; simpl; try tauto.
  split; [intros [? _]; discriminate|intros [_ ?]; discriminate].
Qed.

Lemma fold_effect_compression ks : forall c,
  (forall v, p_compression c = Some v -> compression_enabled v = true) ->
  let d := fold_left (fun c k => effect k c) ks c in
  (forall v, p_compression d = Some v -> compression_enabled v = true)
  /\ (p_compression d = None
      <-> p_compression c = None
          /\ existsb is_enableCompression ks = false).
Proof.
  induction ks as [|k ks IH]; intros c Hc; simpl; [tauto|].
  destruct (IH (effect k c)) as [H1 H2].
  { destruct k; simpl; try exact Hc.
    intros v H. injection H as <-. reflexivity. }
  split; [exact H1|]. rewrite H2.
  destruct k; simpl; try tauto.
  split; [intros [? _]; discriminate|intros [_ ?]; discriminate].
Qed.

(** X19. The optional stages of a built policy are switched by the
    chain alone: scanning is enabled exactly when the chain holds an
    [enableVirusScanning] call, compression exactly when it holds an
    [enableCompression] call; no call switches a stage off again. *)
Theorem built_policy_stages_follow_the_chain
    ks (h : gmap nat PartialUploadConfig) r h' cfg :
  forRoot ks h = (inr r, h') ->
  as_UploadConfig (deref h' r) = Some cfg ->
  virusEnabled cfg = existsb is_enableVirusScanning ks
  /\ compressionEnabled cfg = existsb is_enableCompression ks.
Proof.
  intros H Hcfg. apply forRoot_inr in H as (_ & _ & Hd).
  apply as_UploadConfig_fields in Hcfg as (_ & _ & _ & Hv & Hc).
  rewrite Hd in Hv, Hc.
  assert (Hv' : p_virus (fold_left (fun c k => effect k c) ks empty_config)
                = virus cfg) by (destruct (JS.truthy _); exact Hv).
  assert (Hc' : p_compression
                  (fold_left (fun c k => effect k c) ks empty_config)
                = compression cfg) by (destruct (JS.truthy _); exact Hc).
  destruct (fold_effect_virus ks empty_config) as [V1 V2]; [discriminate|].
  destruct (fold_effect_compression ks empty_config) as [C1 C2];
    [discriminate|].
  simpl in V1, V2, C1, C2. rewrite Hv' in V1, V2. rewrite Hc' in C1, C2.
  unfold virusEnabled, compressionEnabled. split.
  - destruct (virus cfg) as [v|].
    + rewrite (V1 v eq_refl).
      destruct (existsb is_enableVirusScanning ks); [reflexivity|].
      destruct V2 as [_ V2]. discriminate V2. auto.
    + destruct V2 as [V2 _]. destruct (V2 eq_refl) as [_ ->]. reflexivity.
  - destruct (compression cfg) as [c|].
    + rewrite (C1 c eq_refl).
      destruct (existsb is_enableCompression ks); [reflexivity|].
      destruct C2 as [_ C2]. discriminate C2. auto.
    + destruct C2 as [C2 _]. destruct (C2 eq_refl) as [_ ->]. reflexivity.
Qed.

Lemma built_policy_stages_follow_the_chain_witness :
  virusEnabled Examples.scanning_local_policy = true
  /\ compressionEnabled Examples.scanning_local_policy = false.
Proof.
  apply (built_policy_stages_follow_the_chain Examples.scanning_calls ∅
           0%nat (snd (forRoot Examples.scanning_calls ∅))
           Examples.scanning_local_policy);
    vm_compute; reflexivity.
Defined.
